(** * h5ld: decoding the Allotrope Data Format quad table

    A shallow embedding of [h5ld/adf.py] (class [AllotropeDF]) and the
    properties of its quad decoder: the bit layout of a packed node
    reference, the two addressing modes of the string dictionary, the
    three node renderings, the assembly of an N-Quads line and the
    buffering of the output in [dump_ld].

    Conventions of the embedding.
    - A Python [str] is the list of its Unicode code points ([Z]).
    - A [bytes] object, and a row of the [uint8] key table, is a
      [list byte]; [byte_val] gives the numeric value of an element.
    - An [int64] array is a [list Z] of values in [[-2^63, 2^63)];
      arithmetic that can leave the range is wrapped with [Np.int64].
    - A Python exception is the [Raise] case of [result].
    - The quad table is [int64], as [check_ld] asserts; the platform
      writes a line feed for a newline. *)

From Stdlib Require Import Strings.String.
From Stdlib Require Import ZArith List Bool Lia.
From Stdlib Require Import Init.Byte Strings.Byte.
Import ListNotations.
Local Open Scope Z_scope.

(** ** Exceptions and the error monad *)

Inductive exn : Type :=
| IndexError
| ValueError
| UnicodeDecodeError
| UnicodeEncodeError
| H5KeyError (* KeyError, raised by h5py *)
| RdfError (* raised by the RDF library *).

Inductive result (A : Type) : Type :=
| Ok (a : A)
| Raise (e : exn).

Arguments Ok {A} a.
Arguments Raise {A} e.

Definition bind {A B : Type} (m : result A) (k : A -> result B) : result B :=
  match m with
  | Ok a => k a
  | Raise e => Raise e
  end.

Notation "x <- m ;; k" := (bind m (fun x => k))
  (at level 61, m at next level, right associativity).
Notation "' p <- m ;; k" := (bind m (fun x => let p := x in k))
  (at level 61, p pattern, m at next level, right associativity).

Definition is_ok {A : Type} (m : result A) : bool :=
  match m with Ok _ => true | Raise _ => false end.

Definition byte_val (b : byte) : Z := Z.of_N (Byte.to_N b).

Definition mk_byte (z : Z) : byte :=
  match Byte.of_N (Z.to_N z) with
  | Some b => b
  | None => x00
  end.

(** ** Python built-ins used by the decoder *)

Module Py.

Abbreviation bytes := (list byte).
Abbreviation str := (list Z).

(** An ASCII literal of the source as a [str]. *)
Definition lit (s : string) : str := map byte_val (list_byte_of_string s).

(** [l[i]]: a negative index counts from the end; out of range raises. *)
Definition getitem {A : Type} (l : list A) (i : Z) : result A :=
  let n := Z.of_nat (length l) in
  let j := if i <? 0 then i + n else i in
  if (j <? 0) || (n <=? j) then Raise IndexError
  else match nth_error l (Z.to_nat j) with
       | Some a => Ok a
       | None => Raise IndexError
       end.

(** A slice bound, clamped to the sequence as [PySlice_AdjustIndices]
    does for step 1. *)
Definition adjust_index (n i : Z) : Z :=
  if i <? 0 then Z.max 0 (i + n) else Z.min i n.

(** [l[start:stop]]; [None] is an omitted bound.  Never raises. *)
Definition slice {A : Type} (l : list A) (start stop : option Z) : list A :=
  let n := Z.of_nat (length l) in
  let a := match start with Some i => adjust_index n i | None => 0 end in
  let b := match stop with Some i => adjust_index n i | None => n end in
  firstn (Z.to_nat (b - a)) (skipn (Z.to_nat a) l).

Fixpoint starts_with (p s : str) : bool :=
  match p, s with
  | [], _ => true
  | _ :: _, [] => false
  | a :: p', b :: s' => (a =? b) && starts_with p' s'
  end.

(** Left-to-right, non-overlapping replacement; [skip] counts the
    characters of a matched occurrence still to be dropped. *)
Fixpoint replace_from (old new s : str) (skip : nat) : str :=
  match s with
  | [] => []
  | c :: s' =>
      match skip with
      | S k => replace_from old new s' k
      | O =>
          if starts_with old s
          then new ++ replace_from old new s' (length old - 1)
          else c :: replace_from old new s' 0
      end
  end.

(** [s.replace(old, new)]. *)
Definition replace (s old new : str) : str :=
  match old with
  | [] => new ++ flat_map (fun c => c :: new) s
  | _ :: _ => replace_from old new s 0
  end.

(** [sep.join(l)]. *)
Fixpoint join (sep : str) (l : list str) : str :=
  match l with
  | [] => []
  | [x] => x
  | x :: rest => x ++ sep ++ join sep rest
  end.

Definition is_cont (c : Z) : bool := (0x80 <=? c) && (c <=? 0xBF).
Definition between (lo hi c : Z) : bool := (lo <=? c) && (c <=? hi).

(** [bs.decode("utf-8")], strict: overlong forms, surrogates and code
    points above U+10FFFF are rejected. *)
Fixpoint utf8_decode (bs : bytes) : result str :=
  match bs with
  | [] => Ok []
  | b0 :: t0 =>
      let c0 := byte_val b0 in
      if c0 <? 0x80 then
        r <- utf8_decode t0 ;; Ok (c0 :: r)
      else if c0 <? 0xC2 then Raise UnicodeDecodeError
      else if c0 <? 0xE0 then
        match t0 with
        | b1 :: t1 =>
            let c1 := byte_val b1 in
            if is_cont c1 then
              r <- utf8_decode t1 ;;
              Ok (((c0 - 0xC0) * 64 + (c1 - 0x80)) :: r)
            else Raise UnicodeDecodeError
        | _ => Raise UnicodeDecodeError
        end
      else if c0 <? 0xF0 then
        match t0 with
        | b1 :: b2 :: t2 =>
            let c1 := byte_val b1 in
            let c2 := byte_val b2 in
            let lo := if c0 =? 0xE0 then 0xA0 else 0x80 in
            let hi := if c0 =? 0xED then 0x9F else 0xBF in
            if between lo hi c1 && is_cont c2 then
              r <- utf8_decode t2 ;;
              Ok (((c0 - 0xE0) * 4096 + (c1 - 0x80) * 64 + (c2 - 0x80)) :: r)
            else Raise UnicodeDecodeError
        | _ => Raise UnicodeDecodeError
        end
      else if c0 <? 0xF5 then
        match t0 with
        | b1 :: b2 :: b3 :: t3 =>
            let c1 := byte_val b1 in
            let c2 := byte_val b2 in
            let c3 := byte_val b3 in
            let lo := if c0 =? 0xF0 then 0x90 else 0x80 in
            let hi := if c0 =? 0xF4 then 0x8F else 0xBF in
            if between lo hi c1 && is_cont c2 && is_cont c3 then
              r <- utf8_decode t3 ;;
              Ok (((c0 - 0xF0) * 262144 + (c1 - 0x80) * 4096
                   + (c2 - 0x80) * 64 + (c3 - 0x80)) :: r)
            else Raise UnicodeDecodeError
        | _ => Raise UnicodeDecodeError
        end
      else Raise UnicodeDecodeError
  end.

(** One code point in UTF-8; surrogates cannot be encoded. *)
Definition utf8_encode_char (c : Z) : result bytes :=
  if c <? 0 then Raise UnicodeEncodeError
  else if c <? 0x80 then Ok [mk_byte c]
  else if c <? 0x800 then
    Ok [mk_byte (0xC0 + c / 64); mk_byte (0x80 + c mod 64)]
  else if c <? 0x10000 then
    if between 0xD800 0xDFFF c then Raise UnicodeEncodeError
    else Ok [mk_byte (0xE0 + c / 4096); mk_byte (0x80 + (c / 64) mod 64);
             mk_byte (0x80 + c mod 64)]
  else if c <? 0x110000 then
    Ok [mk_byte (0xF0 + c / 262144); mk_byte (0x80 + (c / 4096) mod 64);
        mk_byte (0x80 + (c / 64) mod 64); mk_byte (0x80 + c mod 64)]
  else Raise UnicodeEncodeError.

(** [s.encode("utf-8")]. *)
Fixpoint utf8_encode (s : str) : result bytes :=
  match s with
  | [] => Ok []
  | c :: s' =>
      b <- utf8_encode_char c ;;
      r <- utf8_encode s' ;;
      Ok (b ++ r)
  end.

(** The line separator of the platform; POSIX is assumed. *)
Definition linesep : str := [10].

(** [io.TextIOWrapper(buf, encoding="utf-8")] over an [io.BytesIO]:
    [raw] is what the [BytesIO] holds, [pending] the encoded text the
    wrapper has not passed on to it yet. *)
Record TextIOWrapper : Type := mkTextIO {
  raw : bytes;
  pending : bytes
}.

Definition new_TextIOWrapper : TextIOWrapper := mkTextIO [] [].

(** [store.flush()]: the pending bytes go to the [BytesIO]. *)
Definition flush (store : TextIOWrapper) : TextIOWrapper :=
  mkTextIO (raw store ++ pending store) [].

(** The wrapper's chunk size. *)
Definition chunk_size : Z := 8192.

(** [store.write(s)]: with the default [newline=None] every line feed
    becomes [linesep]; the text is then encoded.  CPython's wrapper
    keeps at most a chunk pending: it passes the pending bytes on
    before adding text that would take them past the chunk size, and
    again once they have reached it. *)
Definition write (store : TextIOWrapper) (s : str) : result TextIOWrapper :=
  b <- utf8_encode (replace s [10] linesep) ;;
  let store :=
    if Z.of_nat (length (pending store)) + Z.of_nat (length b) >? chunk_size
    then flush store else store in
  let store := mkTextIO (raw store) (pending store ++ b) in
  Ok (if Z.of_nat (length (pending store)) >=? chunk_size
      then flush store else store).

(** [buf.getvalue()] of the underlying [BytesIO]. *)
Definition getvalue (store : TextIOWrapper) : bytes := raw store.

End Py.

(** ** NumPy operations used by the decoder *)

Module Np.

(** Wrap-around of a signed 64-bit result. *)
Definition int64 (z : Z) : Z := (z + 2 ^ 63) mod 2 ^ 64 - 2 ^ 63.

(** [np.bitwise_and(a, m)] and [np.right_shift(a, n)] on an [int64]
    array: two's complement and, arithmetic shift.  Neither leaves the
    [int64] range. *)
Definition bitwise_and (a : list Z) (m : Z) : list Z :=
  map (fun x => Z.land x m) a.

Definition right_shift (a : list Z) (n : Z) : list Z :=
  map (fun x => Z.shiftr x n) a.

Definition be_unsigned (bs : Py.bytes) : Z :=
  fold_left (fun acc b => acc * 256 + byte_val b) bs 0.

(** One big-endian two's complement item of [length bs] bytes. *)
Definition be_signed (bs : Py.bytes) : Z :=
  let w := 8 * Z.of_nat (length bs) in
  let u := be_unsigned bs in
  if u <? 2 ^ (w - 1) then u else u - 2 ^ w.

Fixpoint chunks {A : Type} (fuel n : nat) (l : list A) : list (list A) :=
  match fuel with
  | O => []
  | S fuel' =>
      match l with
      | [] => []
      | _ :: _ => firstn n l :: chunks fuel' n (skipn n l)
      end
  end.

(** [np.frombuffer(buf, dtype=">iN")] for an item size of [N] bytes:
    the buffer length must be a multiple of the item size. *)
Definition frombuffer (buf : Py.bytes) (itemsize : nat) : result (list Z) :=
  if (length buf mod itemsize =? 0)%nat
  then Ok (map be_signed (chunks (length buf) itemsize buf))
  else Raise ValueError.

(** [a[i, :]] of a two-dimensional array stored as its list of rows. *)
Definition row {A : Type} (a : list (list A)) (i : Z) : result (list A) :=
  Py.getitem a i.

End Np.

(** ** The decoder: class [AllotropeDF] *)

(** The datasets and the attribute of the HDF5 file the decoder reads,
    once they have been found: [/data-description/quads], an [int64]
    table, with its integer attribute [size], and the two dictionary
    datasets, the rows of unsigned bytes of [keys] and the bytes of
    [bytes]. *)
Record H5File : Type := mkH5File {
  h5_quads : list (list Z);
  h5_quads_size : Z;
  h5_dictionary_keys : list Py.bytes;
  h5_dictionary_bytes : Py.bytes
}.

(** The file as [h5py] hands it over: a dataset or the attribute may be
    absent, and [f[name]] or [attrs[name]] of an absent name raises
    [KeyError], here [H5KeyError].  What is present has the types
    above. *)
Module H5py.

Record File : Type := mkFile {
  quads : option (list (list Z));
  quads_size : option Z;
  dictionary_keys : option (list Py.bytes);
  dictionary_bytes : option Py.bytes
}.

Definition getitem {A : Type} (member : option A) : result A :=
  match member with
  | Some a => Ok a
  | None => Raise H5KeyError
  end.

(** The file in which all of [h5f] is present. *)
Definition of_datasets (h5f : H5File) : File :=
  mkFile (Some (h5_quads h5f)) (Some (h5_quads_size h5f))
         (Some (h5_dictionary_keys h5f)) (Some (h5_dictionary_bytes h5f)).

End H5py.

(** The destination of [dump_ld]: a file named by a path, with its
    present contents, or a binary stream with what was written to it. *)
Inductive Destination : Type :=
| PathDest (contents : Py.bytes)
| StreamDest (written : Py.bytes).

(** [open(destination, mode="wb")] truncates the file of a path; a
    stream is used as it is.  Then [destination.write(data)]. *)
Definition dest_write (d : Destination) (data : Py.bytes) : Destination :=
  match d with
  | PathDest _ => PathDest data
  | StreamDest w => StreamDest (w ++ data)
  end.

Inductive Format : Type := nquads | json_ld | turtle | trig.

Module AllotropeDF.

Import Py.

Definition node_id_31bit_mask : Z := 0x7FFFFFFF.

Section Dictionary.

(** [self.key_store] and [self.str_store]. *)
Variable key_store : list bytes.
Variable str_store : bytes.

Definition _get_string (key : Z) : result str :=
  value <- Np.row key_store key ;;
  n <- getitem value (-1) ;;
  if byte_val n >? 0 then
    utf8_decode (slice value None (Some (byte_val n)))
  else
    starts <- Np.frombuffer (slice value None (Some 8)) 8 ;;
    start <- getitem starts 0 ;;
    counts <- Np.frombuffer (slice value (Some 8) (Some (-1))) 4 ;;
    count <- getitem counts 0 ;;
    utf8_decode
      (slice str_store (Some start) (Some (Np.int64 (start + count)))).

Definition _resource_node (res_key val_key : Z) : result str :=
  val <- _get_string val_key ;;
  res <- _get_string res_key ;;
  Ok (lit "<" ++ res ++ val ++ lit ">").

(** The chain of [replace] calls of [_literal_node]; 34 is the
    double quote, 92 the backslash. *)
Definition escape (val : str) : str :=
  replace
    (replace
       (replace
          (replace
             (replace
                (replace
                   (replace val [34] [92; 34])
                   (lit "'") (92 :: lit "'"))
                [9] (92 :: lit "t"))
             [10] (92 :: lit "n"))
          [13] (92 :: lit "r"))
       [8] (92 :: lit "b"))
    [12] (92 :: lit "f").

Definition _literal_node (res_key val_key : Z) : result str :=
  val <- _get_string val_key ;;
  let val := escape val in
  if res_key =? 0 then
    Ok ([34] ++ val ++ [34])
  else
    res <- _get_string res_key ;;
    Ok ([34] ++ val ++ [34] ++ lit "^^<" ++ res ++ lit ">").

Definition _blank_node (res_key val_key : Z) : result str :=
  val <- _get_string val_key ;;
  c <- getitem val 0 ;;
  let val := if c =? 45 then slice val (Some 1) None else val in
  Ok (lit "_:" ++ val).

Definition template : list (Z -> Z -> result str) :=
  [_blank_node; _resource_node; _literal_node].

(** The inner loop of [_get_quads]: one node string per slot,
    appended to [quad_content]. *)
Fixpoint render_slots (node_kind node_key node_value_key : list Z)
         (slots : list nat) (quad_content : list str)
  : result (list str) :=
  match slots with
  | [] => Ok quad_content
  | i :: slots' =>
      kind <- getitem node_kind (Z.of_nat i) ;;
      f <- getitem template kind ;;
      res_key <- getitem node_key (Z.of_nat i) ;;
      val_key <- getitem node_value_key (Z.of_nat i) ;;
      node <- f res_key val_key ;;
      render_slots node_kind node_key node_value_key slots'
                   (quad_content ++ [node])
  end.

(** The text of one line, from the node strings in column order. *)
Definition quad_line (quad_content : list str) : result str :=
  first <- getitem quad_content 0 ;;
  Ok (join (lit " ") (slice quad_content (Some 1) None)
      ++ (lit " " ++ first) ++ (lit " ." ++ [10])).

(** [quads[qrow, :] = quad], the effect of [out=quad] on the table
    the row is a view of. *)
Fixpoint set_row (quads : list (list Z)) (qrow : nat) (quad : list Z)
  : list (list Z) :=
  match quads, qrow with
  | [], _ => []
  | _ :: rest, O => quad :: rest
  | r :: rest, S k => r :: set_row rest k quad
  end.

(** The body of the outer loop for row [qrow]. *)
Definition quad_body (quads : list (list Z)) (qrow : nat)
           (store : TextIOWrapper)
  : result (list (list Z) * TextIOWrapper) :=
  quad <- Np.row quads (Z.of_nat qrow) ;;
  let node_value_key := Np.bitwise_and quad node_id_31bit_mask in
  let quad := Np.right_shift quad 31 in
  let quads := set_row quads qrow quad in
  let node_key := Np.bitwise_and quad node_id_31bit_mask in
  let node_kind := Np.bitwise_and (Np.right_shift quad 31) 3 in
  quad_content <-
    render_slots node_kind node_key node_value_key
                 (seq 0 (length node_kind)) [] ;;
  line <- quad_line quad_content ;;
  store <- write store line ;;
  Ok (quads, store).

(** [for qrow in range(num_quads)] with its [break]. *)
Fixpoint quads_loop (num_good_quads : Z) (qrows : list nat)
         (quads : list (list Z)) (store : TextIOWrapper)
  : result TextIOWrapper :=
  match qrows with
  | [] => Ok store
  | qrow :: qrows' =>
      if Z.of_nat qrow >=? num_good_quads then Ok store
      else
        '(quads, store) <- quad_body quads qrow store ;;
        quads_loop num_good_quads qrows' quads store
  end.

End Dictionary.

(** [quads[quads[:, -1] == 0, :-1]]: the rows whose last column is 0,
    without that column. *)
Fixpoint select_valid (quads : list (list Z)) : result (list (list Z)) :=
  match quads with
  | [] => Ok []
  | r :: rest =>
      flag <- getitem r (-1) ;;
      rest' <- select_valid rest ;;
      Ok (if flag =? 0 then slice r None (Some (-1)) :: rest' else rest')
  end.

(** [_get_quads] on datasets that have been found. *)
Definition _get_quads (h5f : H5File) (store : TextIOWrapper)
  : result TextIOWrapper :=
  let quads := h5_quads h5f in
  let num_quads := length quads in
  let num_good_quads := h5_quads_size h5f in
  quads <- select_valid quads ;;
  let key_store := h5_dictionary_keys h5f in
  let str_store := h5_dictionary_bytes h5f in
  quads_loop key_store str_store num_good_quads (seq 0 num_quads)
             quads store.

(** [_get_quads] on the file itself, with the lookups of its first
    lines in their order: the table, its attribute [size], then, after
    the valid rows have been selected, the two dictionary datasets. *)
Definition _get_quads_h5f (f : H5py.File) (store : TextIOWrapper)
  : result TextIOWrapper :=
  quads <- H5py.getitem (H5py.quads f) ;;
  let num_quads := length quads in
  num_good_quads <- H5py.getitem (H5py.quads_size f) ;;
  quads <- select_valid quads ;;
  key_store <- H5py.getitem (H5py.dictionary_keys f) ;;
  str_store <- H5py.getitem (H5py.dictionary_bytes f) ;;
  quads_loop key_store str_store num_good_quads (seq 0 num_quads)
             quads store.

Section Serializer.

(** The rdflib collaborator: parsing the N-Quads buffer into a graph
    and serialising a graph to the destination. *)
Variable Graph : Type.
Variable g_parse : bytes -> result Graph.
Variable g_serialize :
  Graph -> Format -> Destination -> result unit * Destination.

(** [dump_ld(destination, format)] with a destination given; the
    result is the outcome and what the destination holds. *)
Definition dump_ld (h5f : H5File) (destination : Destination)
           (format : Format) : result unit * Destination :=
  let store := new_TextIOWrapper in
  match _get_quads h5f store with
  | Raise e => (Raise e, destination)
  | Ok store =>
      let store := flush store in
      match format with
      | nquads => (Ok tt, dest_write destination (getvalue store))
      | _ =>
          match g_parse (getvalue store) with
          | Raise e => (Raise e, destination)
          | Ok g => g_serialize g format destination
          end
      end
  end.

End Serializer.

End AllotropeDF.

(** ** Reference definitions for the properties *)

(** A decoded node reference. *)
Record NodeRef : Type := mkNodeRef {
  kind : Z;
  resource_key : Z;
  value_key : Z
}.

(** The ranges of the three fields for the kinds in use. *)
Definition in_layout (n : NodeRef) : Prop :=
  0 <= kind n <= 2
  /\ 0 <= resource_key n < 2 ^ 31
  /\ 0 <= value_key n < 2 ^ 31.

(** A node reference packed as the format lays it out: [kind] in bits
    63-62, [resource_key] in bits 61-31, [value_key] in bits 30-0; the
    64-bit pattern is held in an [int64] cell of the quad table. *)
Definition pack_node (kind resource_key value_key : Z) : Z :=
  Np.int64
    (Z.lor (Z.shiftl kind 62) (Z.lor (Z.shiftl resource_key 31) value_key)).

Definition pack (n : NodeRef) : Z :=
  pack_node (kind n) (resource_key n) (value_key n).

(** The three arrays the loop body derives from a row, with the row as
    the in-place shift leaves it: [(node_value_key, quad, node_key,
    node_kind)]. *)
Definition decode_row (quad : list Z)
  : list Z * list Z * list Z * list Z :=
  let node_value_key := Np.bitwise_and quad AllotropeDF.node_id_31bit_mask in
  let quad := Np.right_shift quad 31 in
  let node_key := Np.bitwise_and quad AllotropeDF.node_id_31bit_mask in
  let node_kind := Np.bitwise_and (Np.right_shift quad 31) 3 in
  (node_value_key, quad, node_key, node_kind).

(** What one slot of a row contributes to [quad_content]: the three
    fields of the word as the loop body extracts them, dispatched
    through [template]. *)
Definition render_word (key_store : list Py.bytes) (str_store : Py.bytes)
           (w : Z) : result Py.str :=
  f <- Py.getitem (AllotropeDF.template key_store str_store)
                  (Z.land (Z.shiftr (Z.shiftr w 31) 31) 3) ;;
  f (Z.land (Z.shiftr w 31) AllotropeDF.node_id_31bit_mask)
    (Z.land w AllotropeDF.node_id_31bit_mask).

Fixpoint mapM {A B : Type} (f : A -> result B) (l : list A)
  : result (list B) :=
  match l with
  | [] => Ok []
  | a :: l' =>
      b <- f a ;;
      r <- mapM f l' ;;
      Ok (b :: r)
  end.

(** The substitutions of the literal rule, in the order the format
    description lists them: double quote, single quote, tab, line feed,
    carriage return, backspace, form feed. *)
Definition escape_table : list (Py.str * Py.str) :=
  [ ([34], [92; 34]);
    ([39], [92; 39]);
    ([9], [92; 116]);
    ([10], [92; 110]);
    ([13], [92; 114]);
    ([8], [92; 98]);
    ([12], [92; 102]) ].

Definition escape_in_order (val : Py.str) : Py.str :=
  fold_left (fun s on => Py.replace s (fst on) (snd on)) escape_table val.

(** The same substitutions read character by character; the backslash
    (92) is not among them. *)
Definition escape_char (c : Z) : Py.str :=
  if c =? 34 then [92; 34]
  else if c =? 39 then [92; 39]
  else if c =? 9 then [92; 116]
  else if c =? 10 then [92; 110]
  else if c =? 13 then [92; 114]
  else if c =? 8 then [92; 98]
  else if c =? 12 then [92; 102]
  else [c].

(** The two fields of an indirect-mode row: the offset in its first
    eight bytes and the length in the four bytes after them. *)
Definition row_offset (value : Py.bytes) : Z :=
  Np.be_signed (firstn 8 value).

Definition row_length (value : Py.bytes) : Z :=
  Np.be_signed (firstn 4 (skipn 8 value)).

(** The bytes of the store at positions [[O, O+L)]. *)
Definition store_range (str_store : Py.bytes) (O L : Z) : Py.bytes :=
  firstn (Z.to_nat L) (skipn (Z.to_nat O) str_store).

(** Dictionary resolution as the format description words it: the last
    byte of the row selects direct or indirect mode. *)
Definition resolve_described (key_store : list Py.bytes)
           (str_store : Py.bytes) (key : Z) : result Py.str :=
  value <- Np.row key_store key ;;
  n <- Py.getitem value (-1) ;;
  if byte_val n >? 0 then
    Py.utf8_decode (firstn (Z.to_nat (byte_val n)) value)
  else
    Py.utf8_decode
      (store_range str_store (row_offset value) (row_length value)).

(** One row written to the store: its words rendered in column order,
    the line assembled and written. *)
Definition emit_row (key_store : list Py.bytes) (str_store : Py.bytes)
           (quad : list Z) (store : Py.TextIOWrapper)
  : result Py.TextIOWrapper :=
  quad_content <- mapM (render_word key_store str_store) quad ;;
  line <- AllotropeDF.quad_line quad_content ;;
  Py.write store line.

(** Rows written one after the other, stopping at the first failure. *)
Fixpoint emit_rows (key_store : list Py.bytes) (str_store : Py.bytes)
         (rows : list (list Z)) (store : Py.TextIOWrapper)
  : result Py.TextIOWrapper :=
  match rows with
  | [] => Ok store
  | quad :: rows' =>
      store' <- emit_row key_store str_store quad store ;;
      emit_rows key_store str_store rows' store'
  end.

(** A serializer for the sample runs: the graph is the N-Quads text and
    every format writes it out unchanged. *)
Definition sample_parse (b : Py.bytes) : result Py.bytes := Ok b.

Definition sample_serialize (g : Py.bytes) (format : Format)
           (destination : Destination) : result unit * Destination :=
  (Ok tt, dest_write destination g).

(** ** Sample tables *)

Definition sample_refs : list NodeRef :=
  [ mkNodeRef 0 0 7; mkNodeRef 1 3 5; mkNodeRef 1 3 6;
    mkNodeRef 2 2147483647 2147483647 ].

(** The [n] low bytes of [z], most significant first. *)
Fixpoint be_bytes (n : nat) (z : Z) : Py.bytes :=
  match n with
  | O => []
  | S k => mk_byte ((z / 256 ^ Z.of_nat k) mod 256) :: be_bytes k z
  end.

(** A key-table row of [width] bytes holding [s] inline. *)
Definition direct_row (width : nat) (s : string) : Py.bytes :=
  let b := list_byte_of_string s in
  b ++ repeat x00 (width - 1 - length b) ++ [mk_byte (Z.of_nat (length b))].

(** A key-table row of [width] bytes referring to the byte store. *)
Definition indirect_row (width : nat) (O L : Z) : Py.bytes :=
  be_bytes 8 O ++ be_bytes 4 L ++ repeat x00 (width - 13) ++ [x00].

Definition sample_bytes : Py.bytes := list_byte_of_string "xxxxxxxxxxbarxxxx".

(** A key table of width 13. *)
Definition sample_keys : list Py.bytes :=
  [ direct_row 13 "g1";
    direct_row 13 "http://ex/";
    direct_row 13 "s";
    direct_row 13 "p";
    direct_row 13 "hello";
    indirect_row 13 10 4;
    indirect_row 13 10 100;
    indirect_row 13 0 0;
    direct_row 13 "-b1";
    indirect_row 13 100 4 ].

(** A key table of width 14. *)
Definition wide_keys : list Py.bytes :=
  [ indirect_row 14 10 4; direct_row 14 "foo" ].

(** Graph [_:g1], subject [<http://ex/s>], predicate [<http://ex/p>],
    object the untyped literal [hello], in table column order. *)
Definition sample_quad : list Z :=
  [ pack_node 0 0 0; pack_node 1 1 2; pack_node 1 1 3; pack_node 2 0 4 ].

Definition sample_file : H5File :=
  mkH5File [sample_quad ++ [0]] 1 sample_keys sample_bytes.

(** Two valid rows, one invalid row, and a [size] attribute of 3. *)
Definition overcounted_file : H5File :=
  mkH5File [sample_quad ++ [0]; sample_quad ++ [0]; sample_quad ++ [1]]
           3 sample_keys sample_bytes.

(** The same rows with a [size] attribute of 2. *)
Definition counted_file : H5File :=
  mkH5File [sample_quad ++ [0]; sample_quad ++ [0]; sample_quad ++ [1]]
           2 sample_keys sample_bytes.

(** The same with all three rows valid and a [size] attribute of 5. *)
Definition overcounted_all_valid_file : H5File :=
  mkH5File [sample_quad ++ [0]; sample_quad ++ [0]; sample_quad ++ [0]]
           5 sample_keys sample_bytes.

(** A valid row, then a row whose object slot has kind 3. *)
Definition reserved_kind_file : H5File :=
  mkH5File
    [ sample_quad ++ [0];
      [ pack_node 0 0 0; pack_node 1 1 2; pack_node 1 1 3; pack_node 3 0 4;
        0 ] ]
    2 sample_keys sample_bytes.

(** A valid row, then a row whose object refers to key 99, past the
    end of the key table. *)
Definition missing_key_file : H5File :=
  mkH5File
    [ sample_quad ++ [0];
      [ pack_node 0 0 0; pack_node 1 1 2; pack_node 1 1 3; pack_node 2 0 99;
        0 ] ]
    2 sample_keys sample_bytes.

(** A single row whose graph label is the byte 0xFF, in direct mode. *)
Definition invalid_utf8_file : H5File :=
  mkH5File [sample_quad ++ [0]] 1
           [ [xff] ++ repeat x00 11 ++ [x01];
             direct_row 13 "http://ex/";
             direct_row 13 "s";
             direct_row 13 "p";
             direct_row 13 "hello" ]
           sample_bytes.


(** The sample file without the attribute [size] of its table. *)
Definition missing_size_file : H5py.File :=
  H5py.mkFile (Some [sample_quad ++ [0]]) None
              (Some sample_keys) (Some sample_bytes).

(** The values an [int64] cell can hold. *)
Definition in_int64 (w : Z) : Prop := - 2 ^ 63 <= w < 2 ^ 63.

(** The three fields of one word, as the loop body extracts them. *)
Definition word_kind (w : Z) : Z := Z.land (Z.shiftr (Z.shiftr w 31) 31) 3.

Definition word_key (w : Z) : Z :=
  Z.land (Z.shiftr w 31) AllotropeDF.node_id_31bit_mask.

Definition word_value_key (w : Z) : Z :=
  Z.land w AllotropeDF.node_id_31bit_mask.

(** An invalid row, a valid row, a row with flag 7, and a second valid
    row with another graph label; [size] is 2. *)
Definition interleaved_file : H5File :=
  mkH5File
    [ sample_quad ++ [1];
      sample_quad ++ [0];
      sample_quad ++ [7];
      [ pack_node 0 0 8; pack_node 1 1 2; pack_node 1 1 3; pack_node 2 0 4;
        0 ] ]
    2 sample_keys sample_bytes.

(** [get_ld()]: [dump_ld(destination=None)], which parses the buffer
    and returns the graph. *)
Definition get_ld {Graph : Type} (g_parse : Py.bytes -> result Graph)
           (h5f : H5File) : result Graph :=
  store <- AllotropeDF._get_quads h5f Py.new_TextIOWrapper ;;
  g_parse (Py.getvalue (Py.flush store)).

(** A key table of width 13 whose only row refers to offset -7 with
    length 3. *)
Definition from_end_keys : list Py.bytes := [ indirect_row 13 (-7) 3 ].

(** ** The probes and the command line *)

From Stdlib Require Import Strings.Ascii Numbers.DecimalString.

(** An object of the file as the probes see it: a group, or a dataset
    with the name of its dtype, its shape and its integer attributes.
    Objects are listed under their absolute paths. *)
Inductive H5Object : Type :=
| H5Group
| H5Dataset (dtype_name : string) (shape : list nat)
            (attrs : list (string * Z)).

Record H5Layout : Type := mkH5Layout {
  root_attrs : list (string * string);
  objects : list (string * H5Object)
}.

(** The exceptions of the probes, all of which they swallow. *)
Inductive probe_exn : Type := KeyError | AttributeError | AssertionError.

Inductive attempt (A : Type) : Type :=
| Returned (a : A)
| Raised (e : probe_exn).

Arguments Returned {A} a.
Arguments Raised {A} e.

Definition and_then {A B : Type} (m : attempt A) (k : A -> attempt B)
  : attempt B :=
  match m with
  | Returned a => k a
  | Raised e => Raised e
  end.

Notation "x <~ m ;; k" := (and_then m (fun x => k))
  (at level 61, m at next level, right associativity).

(** [mapping[name]]. *)
Fixpoint lookup {V : Type} (name : string) (l : list (string * V))
  : attempt V :=
  match l with
  | [] => Raised KeyError
  | (k, v) :: l' => if String.eqb name k then Returned v else lookup name l'
  end.

(** [assert b]. *)
Definition assert_that (b : bool) : attempt unit :=
  if b then Returned tt else Raised AssertionError.

(** The text of [str(z)] for an integer. *)
Definition decimal (z : Z) : string := NilZero.string_of_int (Z.to_int z).

Definition double_quote : string := String "034"%char EmptyString.

(** [AllotropeDF.verify_format(f)]. *)
Definition verify_format (f : H5Layout) : bool :=
  match (_ <~ lookup "adf-lib-version" (root_attrs f) ;;
         _ <~ lookup "adf-version" (root_attrs f) ;;
         Returned true) with
  | Returned b => b
  | Raised _ => false
  end.

(** The [try] block of [check_ld]; the result is what it prints. *)
Definition check_ld_try (f : H5Layout) (report : bool)
  : attempt (list string) :=
  quads <~ lookup "/data-description/quads" (objects f) ;;
  match quads with
  | H5Group => Raised AttributeError
  | H5Dataset dtype_name shape attrs =>
      _ <~ assert_that (String.eqb dtype_name "int64") ;;
      _ <~ assert_that (length shape =? 2)%nat ;;
      _ <~ assert_that (nth 1 shape 0 =? 5)%nat ;;
      _ <~ lookup "/data-description/dictionary/keys" (objects f) ;;
      _ <~ lookup "/data-description/dictionary/bytes" (objects f) ;;
      if report then
        size <~ lookup "size" attrs ;;
        Returned [("Number of RDF quads: " ++ decimal size)%string]
      else Returned []
  end.

(** [AllotropeDF.check_ld(f, report)]: the result and the lines
    printed. *)
Definition check_ld (f : H5Layout) (report : bool) : bool * list string :=
  match check_ld_try f report with
  | Returned printed => (true, printed)
  | Raised _ => (false, [])
  end.

(** The parsed command line. *)
Record Args : Type := mkArgs {
  arg_h5file : string;
  arg_check : bool;
  arg_format : Format;
  arg_output : option string
}.

(** Where [main] sends the dump: [arg.output or sys.stdout.buffer]. *)
Inductive Target : Type :=
| ToPath (path : string)
| ToStdout.

Definition target_of (output : option string) : Target :=
  match output with
  | Some EmptyString => ToStdout
  | Some path => ToPath path
  | None => ToStdout
  end.

Inductive Exit : Type :=
| Finished
| SystemExit (message : string)
| Uncaught (e : exn).

Section CommandLine.

(** The state outside the program, [print] on it, and a reader class
    with its operations on the open file [f]. *)
Variable World : Type.
Variable print : World -> string -> World.

Record Reader : Type := mkReader {
  reader_name : string;
  reader_short_name : string;
  reader_verify_format : H5Layout -> bool;
  reader_check_ld : H5Layout -> bool -> bool * list string;
  reader_dump_ld : H5Layout -> Target -> Format -> World -> Exit * World
}.

Definition print_all (w : World) (lines : list string) : World :=
  fold_left print lines w.

(** The lines printed when the check fails. *)
Definition unsupported_notice (formats : list Reader) (h5file : string)
  : list string :=
  [ (double_quote ++ h5file ++ double_quote
       ++ " has unsupported linked data storage format")%string;
    "Supported linked data formats:"%string ]
    ++ map (fun r =>
              ("   * " ++ reader_name r ++ " (" ++ reader_short_name r
                 ++ ")")%string)
           formats.

(** The body of [__main__] on the parsed arguments and the open
    file. *)
Definition main (formats : list Reader) (arg : Args) (f : H5Layout)
           (w : World) : Exit * World :=
  match find (fun cls => reader_verify_format cls f) formats with
  | None =>
      (SystemExit
         ("Unsupported data content in " ++ double_quote ++ arg_h5file arg
            ++ double_quote ++ ".")%string,
       w)
  | Some cls =>
      if arg_check arg then
        let '(ok, printed) := reader_check_ld cls f true in
        let w := print_all w printed in
        if ok then (Finished, w)
        else (Finished, print_all w (unsupported_notice formats
                                                        (arg_h5file arg)))
      else
        reader_dump_ld cls f (target_of (arg_output arg)) (arg_format arg) w
  end.

End CommandLine.

(** A reader class with another [dump_ld]. *)
Definition with_dump_ld {World : Type}
           (dump : H5Layout -> Target -> Format -> World -> Exit * World)
           (r : Reader World) : Reader World :=
  mkReader World (reader_name World r) (reader_short_name World r)
           (reader_verify_format World r) (reader_check_ld World r) dump.

Arguments mkReader {World}.
Arguments reader_name {World}.
Arguments reader_short_name {World}.
Arguments reader_verify_format {World}.
Arguments reader_check_ld {World}.
Arguments reader_dump_ld {World}.
Arguments print_all {World}.
Arguments unsupported_notice {World}.
Arguments main {World}.

(** A file with both version attributes, a 3-by-5 [int64] table with
    its [size] attribute and the two dictionary datasets. *)
Definition sample_layout : H5Layout :=
  mkH5Layout
    [ ("adf-lib-version", "1.5.3"); ("adf-version", "1.2") ]%string
    [ ("/data-description/quads"%string,
       H5Dataset "int64" [3; 5]%nat [("size"%string, 2)]);
      ("/data-description/dictionary/keys"%string,
       H5Dataset "uint8" [10; 13]%nat []);
      ("/data-description/dictionary/bytes"%string,
       H5Dataset "uint8" [17]%nat []) ].

(** The same without the [size] attribute, and with a group where the
    key table should be. *)
Definition unsized_layout : H5Layout :=
  mkH5Layout
    [ ("adf-lib-version", "1.5.3"); ("adf-version", "1.2") ]%string
    [ ("/data-description/quads"%string, H5Dataset "int64" [3; 5]%nat []);
      ("/data-description/dictionary/keys"%string, H5Group);
      ("/data-description/dictionary/bytes"%string,
       H5Dataset "uint8" [17]%nat []) ].

(** A world that is the list of lines printed, and the ADF reader on
    it, whose dump prints a marker. *)
Definition sample_reader : Reader (list string) :=
  mkReader "Allotrope Data Format" "ADF" verify_format check_ld
           (fun _ _ _ w => (Finished, w ++ ["<dump>"%string])).

(** A string that [encode("utf-8")] accepts. *)
Definition encodable (s : Py.str) : Prop :=
  exists b : Py.bytes, Py.utf8_encode s = Ok b.

(** The text of the line of one row. *)
Definition row_line (key_store : list Py.bytes) (str_store : Py.bytes)
           (quad : list Z) : result Py.str :=
  quad_content <- mapM (render_word key_store str_store) quad ;;
  AllotropeDF.quad_line quad_content.

(** The text of the lines of a list of rows, up to the first failure. *)
Fixpoint rows_text (key_store : list Py.bytes) (str_store : Py.bytes)
         (rows : list (list Z)) : result Py.str :=
  match rows with
  | [] => Ok []
  | quad :: rows' =>
      line <- row_line key_store str_store quad ;;
      text <- rows_text key_store str_store rows' ;;
      Ok (line ++ text)
  end.

(** The exceptions of the decoder proper. *)
Definition decode_error (e : exn) : Prop :=
  e = IndexError \/ e = ValueError \/ e = UnicodeDecodeError.

(** ** Arithmetic of the bit fields *)

Lemma lor_shiftl_low (a b n : Z) :
  0 <= n -> 0 <= b < 2 ^ n -> Z.lor (Z.shiftl a n) b = a * 2 ^ n + b.
Proof.
  intros Hn Hb.
  assert (Hdisj : Z.land (Z.shiftl a n) b = 0).
  { apply Z.bits_inj'. intros i Hi.
    rewrite Z.land_spec, Z.bits_0.
    destruct (Z.ltb_spec i n) as [Hlt | Hge].
    - rewrite Z.shiftl_spec_low by lia. reflexivity.
    - replace b with (b mod 2 ^ n) by (apply Z.mod_small; lia).
      rewrite Z.mod_pow2_bits_high by lia. apply andb_false_r. }
  rewrite <- Z.lxor_lor by exact Hdisj.
  rewrite <- Z.add_nocarry_lxor by exact Hdisj.
  rewrite Z.shiftl_mul_pow2 by lia. reflexivity.
Qed.

Lemma int64_congr (u : Z) : (Np.int64 u) mod 2 ^ 64 = u mod 2 ^ 64.
Proof.
  unfold Np.int64.
  rewrite Zminus_mod, Zmod_mod, <- Zminus_mod.
  f_equal. lia.
Qed.

Lemma int64_id (z : Z) : - 2 ^ 63 <= z < 2 ^ 63 -> Np.int64 z = z.
Proof.
  intros H. unfold Np.int64.
  rewrite Z.mod_small by lia. lia.
Qed.

(** The field of [width] bits at bit [pos] of a word depends only on
    the word modulo [2^64] when the field lies below bit 64. *)
Lemma field_mod64 (w pos width : Z) :
  0 <= pos -> 0 <= width -> pos + width <= 64 ->
  (w / 2 ^ pos) mod 2 ^ width = ((w mod 2 ^ 64) / 2 ^ pos) mod 2 ^ width.
Proof.
  intros Hp Hw Hle.
  rewrite <- !Z.shiftr_div_pow2 by lia.
  rewrite <- !Z.land_ones by lia.
  apply Z.bits_inj'. intros i Hi.
  rewrite !Z.land_spec, !Z.shiftr_spec by lia.
  destruct (Z.ltb_spec i width) as [Hlt | Hge].
  - rewrite Z.land_spec, (Z.ones_spec_low 64) by lia.
    rewrite andb_true_r. reflexivity.
  - rewrite Z.ones_spec_high by lia. rewrite !andb_false_r. reflexivity.
Qed.

(** The three extractions of the loop body, on any integer that agrees
    modulo [2^64] with the packed fields: the signed and the unsigned
    reading of the same 64 bits give the same fields. *)
Lemma fields_of_word (w k r v : Z) :
  0 <= k < 4 -> 0 <= r < 2 ^ 31 -> 0 <= v < 2 ^ 31 ->
  w mod 2 ^ 64 = k * 2 ^ 62 + r * 2 ^ 31 + v ->
  Z.land w AllotropeDF.node_id_31bit_mask = v
  /\ Z.land (Z.shiftr w 31) AllotropeDF.node_id_31bit_mask = r
  /\ Z.land (Z.shiftr (Z.shiftr w 31) 31) 3 = k.
Proof.
  intros Hk Hr Hv Hu.
  change AllotropeDF.node_id_31bit_mask with (Z.ones 31).
  change 3 with (Z.ones 2).
  rewrite Z.shiftr_shiftr by lia.
  rewrite !Z.land_ones by lia.
  rewrite !Z.shiftr_div_pow2 by lia.
  rewrite <- (Z.div_1_r w) at 1. change 1 with (2 ^ 0) at 1.
  rewrite (field_mod64 w 0 31), (field_mod64 w 31 31), (field_mod64 w (31 + 31) 2)
    by lia.
  rewrite Hu. simpl (31 + 31).
  repeat split.
  - change (2 ^ 0) with 1. rewrite Z.div_1_r.
    replace (k * 2 ^ 62 + r * 2 ^ 31 + v)
      with (v + (k * 2 ^ 31 + r) * 2 ^ 31) by lia.
    rewrite Z.mod_add by lia. apply Z.mod_small; lia.
  - replace (k * 2 ^ 62 + r * 2 ^ 31 + v)
      with (v + (k * 2 ^ 31 + r) * 2 ^ 31) by lia.
    rewrite Z.div_add by lia. rewrite (Z.div_small v) by lia.
    rewrite Z.add_0_l. rewrite Z.add_comm, Z.mod_add by lia.
    apply Z.mod_small; lia.
  - replace (k * 2 ^ 62 + r * 2 ^ 31 + v)
      with ((r * 2 ^ 31 + v) + k * 2 ^ 62) by lia.
    rewrite Z.div_add by lia. rewrite (Z.div_small (r * 2 ^ 31 + v)) by lia.
    apply Z.mod_small; lia.
Qed.

Lemma packed_bits (k r v : Z) :
  0 <= k < 4 -> 0 <= r < 2 ^ 31 -> 0 <= v < 2 ^ 31 ->
  Z.lor (Z.shiftl k 62) (Z.lor (Z.shiftl r 31) v)
  = k * 2 ^ 62 + r * 2 ^ 31 + v.
Proof.
  intros Hk Hr Hv.
  rewrite (lor_shiftl_low r v 31) by lia.
  rewrite (lor_shiftl_low k (r * 2 ^ 31 + v) 62) by lia.
  apply Z.add_assoc.
Qed.

Lemma packed_fields (k r v : Z) :
  0 <= k < 4 -> 0 <= r < 2 ^ 31 -> 0 <= v < 2 ^ 31 ->
  let w := pack_node k r v in
  Z.land w AllotropeDF.node_id_31bit_mask = v
  /\ Z.land (Z.shiftr w 31) AllotropeDF.node_id_31bit_mask = r
  /\ Z.land (Z.shiftr (Z.shiftr w 31) 31) 3 = k.
Proof.
  intros Hk Hr Hv w.
  apply fields_of_word; try assumption.
  unfold w, pack_node. rewrite int64_congr, packed_bits by assumption.
  apply Z.mod_small. lia.
Qed.

(** The same fields come out of the 64 bits read as an unsigned word. *)
Remark packed_fields_unsigned (k r v : Z) :
  0 <= k < 4 -> 0 <= r < 2 ^ 31 -> 0 <= v < 2 ^ 31 ->
  let w := Z.lor (Z.shiftl k 62) (Z.lor (Z.shiftl r 31) v) in
  pack_node k r v = Np.int64 w
  /\ Z.land w AllotropeDF.node_id_31bit_mask = v
  /\ Z.land (Z.shiftr w 31) AllotropeDF.node_id_31bit_mask = r
  /\ Z.land (Z.shiftr (Z.shiftr w 31) 31) 3 = k.
Proof.
  intros Hk Hr Hv w. split; [reflexivity |].
  apply fields_of_word; try assumption.
  unfold w. rewrite packed_bits by assumption.
  apply Z.mod_small. lia.
Qed.

(** ** The bit layout of a node reference *)

Lemma decode_row_packed (refs : list NodeRef) :
  Forall in_layout refs ->
  Np.bitwise_and (map pack refs) AllotropeDF.node_id_31bit_mask
    = map value_key refs
  /\ Np.bitwise_and (Np.right_shift (map pack refs) 31)
                    AllotropeDF.node_id_31bit_mask
    = map resource_key refs
  /\ Np.bitwise_and (Np.right_shift (Np.right_shift (map pack refs) 31) 31) 3
    = map kind refs.
Proof.
  induction 1 as [| n refs Hn _ IH]; [repeat split |].
  destruct Hn as (Hk & Hr & Hv).
  destruct (packed_fields (kind n) (resource_key n) (value_key n))
    as (Ev & Er & Ek); try lia.
  destruct IH as (IHv & IHr & IHk).
  unfold Np.bitwise_and, Np.right_shift in *. cbn [map].
  fold (pack n). unfold pack at 1 3 5.
  rewrite Ev, Er, Ek, IHv, IHr, IHk. repeat split.
Qed.

(** C1. Bit-layout round trip: for node references with kind in
    {0,1,2} and both keys in [0, 2^31), packing each into a 64-bit word
    (kind in bits 63-62, resource key in bits 61-31, value key in bits
    30-0) and extracting the fields as the loop body does -- value key
    by masking, resource key by masking the row shifted in place by 31,
    kind by masking that row shifted by 31 again -- gives back the kinds,
    resource keys and value keys that were packed. *)
Theorem bit_layout_round_trip (refs : list NodeRef) :
  Forall in_layout refs ->
  let '(node_value_key, _, node_key, node_kind) :=
    decode_row (map pack refs) in
  node_kind = map kind refs
  /\ node_key = map resource_key refs
  /\ node_value_key = map value_key refs.
Proof.
  intros H. unfold decode_row.
  destruct (decode_row_packed refs H) as (Ev & Er & Ek).
  rewrite Ev, Er, Ek. repeat split.
Qed.

Lemma sample_refs_in_layout : Forall in_layout sample_refs.
Proof.
  repeat constructor; cbn; lia.
Defined.

Lemma bit_layout_round_trip_witness :
  Forall in_layout sample_refs
  /\ (let '(node_value_key, _, node_key, node_kind) :=
        decode_row (map pack sample_refs) in
      node_kind = map kind sample_refs
      /\ node_key = map resource_key sample_refs
      /\ node_value_key = map value_key sample_refs).
Proof.
  split.
  - exact sample_refs_in_layout.
  - exact (bit_layout_round_trip sample_refs sample_refs_in_layout).
Defined.

(** ** Indexing and slicing *)

Lemma getitem_nth {A : Type} (l : list A) (i : Z) (a : A) :
  0 <= i -> nth_error l (Z.to_nat i) = Some a -> Py.getitem l i = Ok a.
Proof.
  intros Hi Hn. unfold Py.getitem.
  assert (Hlt : (Z.to_nat i < length l)%nat)
    by (apply nth_error_Some; congruence).
  destruct (Z.ltb_spec i 0); [lia |].
  destruct (Z.ltb_spec i 0); [lia |].
  destruct (Z.leb_spec (Z.of_nat (length l)) i); [lia |].
  cbn [orb]. rewrite Hn. reflexivity.
Qed.

Lemma getitem_out_of_range {A : Type} (l : list A) (i : Z) :
  Z.of_nat (length l) <= i -> Py.getitem l i = Raise IndexError.
Proof.
  intros Hi. unfold Py.getitem.
  destruct (Z.ltb_spec i 0); [lia |].
  destruct (Z.ltb_spec i 0); [lia |].
  destruct (Z.leb_spec (Z.of_nat (length l)) i); [| lia].
  reflexivity.
Qed.

Lemma getitem_head {A : Type} (a : A) (l : list A) :
  Py.getitem (a :: l) 0 = Ok a.
Proof.
  apply getitem_nth; [lia | reflexivity].
Qed.

Lemma getitem_nil {A : Type} (i : Z) :
  Py.getitem (@nil A) i = Raise IndexError.
Proof.
  unfold Py.getitem. cbn [length Z.of_nat].
  destruct (Z.ltb_spec i 0).
  - destruct (Z.ltb_spec (i + 0) 0); [reflexivity | lia].
  - destruct (Z.ltb_spec i 0); [lia |].
    destruct (Z.leb_spec 0 i); [reflexivity | lia].
Qed.

Lemma getitem_last {A : Type} (body : list A) (n : A) :
  Py.getitem (body ++ [n]) (-1) = Ok n.
Proof.
  unfold Py.getitem. rewrite length_app. cbn [length].
  change (-1 <? 0) with true. cbv iota.
  destruct (Z.ltb_spec (-1 + Z.of_nat (length body + 1)) 0); [lia |].
  destruct (Z.leb_spec (Z.of_nat (length body + 1))
                       (-1 + Z.of_nat (length body + 1))); [lia |].
  cbn [orb].
  replace (Z.to_nat (-1 + Z.of_nat (length body + 1))) with (length body)
    by lia.
  rewrite nth_error_app2 by lia. rewrite Nat.sub_diag. reflexivity.
Qed.

Lemma slice_prefix {A : Type} (l : list A) (n : Z) :
  0 <= n -> Py.slice l None (Some n) = firstn (Z.to_nat n) l.
Proof.
  intros Hn. unfold Py.slice, Py.adjust_index.
  destruct (Z.ltb_spec n 0); [lia |].
  cbn [Z.to_nat skipn]. rewrite Z.sub_0_r.
  destruct (Z.le_ge_cases n (Z.of_nat (length l))).
  - rewrite Z.min_l by lia. reflexivity.
  - rewrite Z.min_r by lia. rewrite Nat2Z.id.
    rewrite !firstn_all2 by lia. reflexivity.
Qed.

Lemma slice_tail {A : Type} (a : A) (l : list A) :
  Py.slice (a :: l) (Some 1) None = l.
Proof.
  unfold Py.slice, Py.adjust_index. change (1 <? 0) with false. cbv iota.
  rewrite Z.min_l by (cbn [length]; lia).
  change (Z.to_nat 1) with 1%nat. cbn [skipn].
  apply firstn_all2. cbn [length]. lia.
Qed.

(** [value[8:-1]] of a row with its flag byte split off. *)
Lemma slice_8_m1 {A : Type} (body : list A) (n : A) :
  Py.slice (body ++ [n]) (Some 8) (Some (-1)) = skipn 8 body.
Proof.
  unfold Py.slice, Py.adjust_index. rewrite length_app. cbn [length].
  change (8 <? 0) with false. change (-1 <? 0) with true. cbv iota.
  destruct (Nat.le_gt_cases 8 (length body)) as [Hge | Hlt].
  - rewrite Z.min_l by lia. rewrite Z.max_r by lia.
    change (Z.to_nat 8) with 8%nat.
    rewrite skipn_app.
    replace (8 - length body)%nat with 0%nat by lia. rewrite skipn_O.
    rewrite firstn_app.
    rewrite firstn_all2 by (rewrite length_skipn; lia).
    replace (Z.to_nat (-1 + Z.of_nat (length body + 1) - 8)
             - length (skipn 8 body))%nat with 0%nat
      by (rewrite length_skipn; lia).
    cbn [firstn]. apply app_nil_r.
  - rewrite (skipn_all2 body) by lia.
    replace (Z.to_nat (Z.max 0 (-1 + Z.of_nat (length body + 1))
                       - Z.min 8 (Z.of_nat (length body + 1)))) with 0%nat
      by lia.
    reflexivity.
Qed.

(** ** Reading a big-endian field with [frombuffer] *)

Lemma frombuffer_first (buf : Py.bytes) (itemsize : nat) :
  (0 < itemsize)%nat -> buf <> [] ->
  (length buf mod itemsize = 0)%nat ->
  (arr <- Np.frombuffer buf itemsize ;; Py.getitem arr 0)
  = Ok (Np.be_signed (firstn itemsize buf)).
Proof.
  intros Hpos Hne Hmod. unfold Np.frombuffer.
  rewrite Hmod. cbn [Nat.eqb bind].
  destruct buf as [| b buf]; [congruence |].
  cbn [length Np.chunks map]. apply getitem_head.
Qed.

Lemma frombuffer_misaligned (buf : Py.bytes) (itemsize : nat) :
  (length buf mod itemsize <> 0)%nat ->
  (arr <- Np.frombuffer buf itemsize ;; Py.getitem arr 0) = Raise ValueError.
Proof.
  intros Hmod. unfold Np.frombuffer.
  destruct (Nat.eqb_spec (length buf mod itemsize) 0); [contradiction |].
  reflexivity.
Qed.

Lemma frombuffer_empty (itemsize : nat) :
  (arr <- Np.frombuffer [] itemsize ;; Py.getitem arr 0) = Raise IndexError.
Proof.
  unfold Np.frombuffer. cbn [length].
  rewrite Nat.Div0.mod_0_l. reflexivity.
Qed.

(** ** Dictionary resolution *)

Lemma bind_assoc {A B C : Type} (m : result A) (f : A -> result B)
      (g : B -> result C) :
  (b <- (a <- m ;; f a) ;; g b) = (a <- m ;; b <- f a ;; g b).
Proof.
  destruct m; reflexivity.
Qed.

Lemma store_slice_range (str_store : Py.bytes) (O L : Z) :
  0 <= O -> 0 <= L ->
  Py.slice str_store (Some O) (Some (O + L)) = store_range str_store O L.
Proof.
  intros HO HL. unfold Py.slice, Py.adjust_index, store_range.
  set (n := Z.of_nat (length str_store)).
  destruct (Z.ltb_spec O 0); [lia |].
  destruct (Z.ltb_spec (O + L) 0); [lia |].
  destruct (Z.le_gt_cases n O) as [Hout | Hin].
  - rewrite (Z.min_r O n) by lia.
    rewrite !skipn_all2 by (unfold n in *; lia).
    rewrite !firstn_nil. reflexivity.
  - rewrite (Z.min_l O n) by lia.
    destruct (Z.le_gt_cases (O + L) n).
    + rewrite Z.min_l by lia. f_equal. lia.
    + rewrite Z.min_r by lia.
      rewrite !firstn_all2; [reflexivity | |];
        rewrite length_skipn; unfold n in *; lia.
Qed.

Section Resolution.

Variable key_store : list Py.bytes.
Variable str_store : Py.bytes.

Let resolve := AllotropeDF._get_string key_store str_store.

Lemma get_string_out_of_range (key : Z) :
  Z.of_nat (length key_store) <= key -> resolve key = Raise IndexError.
Proof.
  intros H. unfold resolve, AllotropeDF._get_string, Np.row.
  rewrite getitem_out_of_range by exact H. reflexivity.
Qed.

Section Row.

(** An in-range key and its row, the flag byte split off. *)
Variable key : Z.
Variable body : Py.bytes.
Variable n : byte.
Hypothesis key_pos : 0 <= key.
Hypothesis key_row :
  nth_error key_store (Z.to_nat key) = Some (body ++ [n]).

Let value := body ++ [n].
Let W := Z.of_nat (length value).

Lemma get_string_direct :
  0 < byte_val n ->
  resolve key = Py.utf8_decode (firstn (Z.to_nat (byte_val n)) value).
Proof.
  intros Hn. unfold resolve, AllotropeDF._get_string, Np.row.
  rewrite (getitem_nth _ _ _ key_pos key_row). cbn [bind].
  rewrite getitem_last. cbn [bind].
  destruct (Z.gtb_spec (byte_val n) 0); [| lia].
  rewrite slice_prefix by lia. reflexivity.
Qed.

(** Indirect mode as the code runs it: two [frombuffer] reads, then
    the slice of the byte store. *)
Lemma get_string_indirect_steps :
  byte_val n = 0 ->
  resolve key =
    (start <- (arr <- Np.frombuffer (firstn 8 value) 8 ;;
               Py.getitem arr 0) ;;
     count <- (arr <- Np.frombuffer (skipn 8 body) 4 ;;
               Py.getitem arr 0) ;;
     Py.utf8_decode
       (Py.slice str_store (Some start)
                 (Some (Np.int64 (start + count))))).
Proof.
  intros Hn. unfold resolve, AllotropeDF._get_string, Np.row.
  rewrite (getitem_nth _ _ _ key_pos key_row). cbn [bind].
  rewrite getitem_last. cbn [bind].
  rewrite Hn. change (0 >? 0) with false. cbv iota.
  rewrite slice_prefix by lia. rewrite slice_8_m1.
  change (Z.to_nat 8) with 8%nat. fold value.
  rewrite bind_assoc.
  destruct (Np.frombuffer (firstn 8 value) 8) as [starts | e];
    [| reflexivity].
  cbn [bind].
  destruct (Py.getitem starts 0) as [start | e]; [| reflexivity].
  cbn [bind]. rewrite bind_assoc. reflexivity.
Qed.

Lemma row_length_body :
  (12 <= length body)%nat ->
  Np.be_signed (firstn 4 (skipn 8 body)) = row_length value.
Proof.
  intros Hlen. unfold row_length, value.
  rewrite skipn_app, firstn_app.
  replace (4 - length (skipn 8 body))%nat with 0%nat
    by (rewrite length_skipn; lia).
  cbn [firstn]. rewrite app_nil_r. reflexivity.
Qed.

(** With a readable length field the slice bounds are the two
    fields of the row. *)
Lemma get_string_indirect :
  byte_val n = 0 -> 13 <= W -> (W - 9) mod 4 = 0 ->
  resolve key =
    Py.utf8_decode
      (Py.slice str_store (Some (row_offset value))
                (Some (Np.int64 (row_offset value + row_length value)))).
Proof.
  intros Hn HW Hmod. rewrite get_string_indirect_steps by exact Hn.
  assert (HWv : W = Z.of_nat (length body) + 1).
  { unfold W, value. rewrite length_app. cbn [length]. lia. }
  rewrite frombuffer_first.
  - cbn [bind]. rewrite frombuffer_first.
    + cbn [bind]. rewrite firstn_firstn. cbn [Nat.min].
      rewrite row_length_body by lia. reflexivity.
    + lia.
    + intros E. apply (f_equal (@length byte)) in E.
      rewrite length_skipn in E. cbn [length] in E. lia.
    + rewrite length_skipn.
      apply Nat2Z.inj. rewrite Nat2Z.inj_mod.
      rewrite Nat2Z.inj_sub by lia.
      replace (Z.of_nat (length body) - Z.of_nat 8) with (W - 9) by lia.
      exact Hmod.
  - lia.
  - intros E. apply (f_equal (@length byte)) in E.
    rewrite length_firstn in E. cbn [length] in E.
    unfold W in HW. lia.
  - rewrite length_firstn. unfold W in HW.
    rewrite Nat.min_l by lia. reflexivity.
Qed.

(** Any other row width makes every indirect lookup raise. *)
Lemma get_string_indirect_width :
  byte_val n = 0 -> W < 13 \/ (W - 9) mod 4 <> 0 ->
  exists e, resolve key = Raise e.
Proof.
  intros Hn Hbad. rewrite get_string_indirect_steps by exact Hn.
  assert (HWv : W = Z.of_nat (length body) + 1).
  { unfold W, value. rewrite length_app. cbn [length]. lia. }
  assert (Hlen8 : length (firstn 8 value) = Nat.min 8 (length value))
    by apply length_firstn.
  destruct (Z.lt_ge_cases W 8) as [Hsmall | Hbig].
  - exists ValueError. rewrite frombuffer_misaligned; [reflexivity |].
    rewrite Hlen8. unfold W in *.
    rewrite Nat.min_r by lia.
    rewrite Nat.mod_small by lia. lia.
  - rewrite frombuffer_first;
      [| lia
       | intros E; apply (f_equal (@length byte)) in E;
         rewrite Hlen8 in E; cbn [length] in E; unfold W in *; lia
       | rewrite Hlen8; unfold W in *; rewrite Nat.min_l by lia;
         reflexivity ].
    cbn [bind].
    destruct (le_gt_dec (length body) 8) as [Hshort | Hlong].
    + (* W is 8 or 9: the length field is an empty buffer. *)
      exists IndexError.
      rewrite (skipn_all2 body) by exact Hshort.
      rewrite frombuffer_empty. reflexivity.
    + assert (Hnz : (W - 9) mod 4 <> 0).
      { destruct Hbad as [Hlt | Hne]; [| exact Hne].
        assert (Hw : W = 10 \/ W = 11 \/ W = 12) by lia.
        destruct Hw as [-> | [-> | ->]]; discriminate. }
      exists ValueError.
      rewrite frombuffer_misaligned; [reflexivity |].
      rewrite length_skipn. intros E. apply Hnz.
      apply (f_equal Z.of_nat) in E. rewrite Nat2Z.inj_mod in E.
      rewrite Nat2Z.inj_sub in E by lia.
      replace (W - 9) with (Z.of_nat (length body) - Z.of_nat 8)
        by lia.
      exact E.
Qed.

End Row.

End Resolution.

(** Closes a side condition on concrete data by evaluation. *)
Ltac by_evaluation :=
  first [ reflexivity
        | lia
        | vm_compute; first [ reflexivity | discriminate
                            | split; first [ reflexivity | discriminate ] ] ].

(** C3. Dictionary resolution in its two modes, for an in-range key
    whose row is [body ++ [n]] of width [W].  Direct mode ([n > 0]):
    the UTF-8 decoding of the first [n] bytes of the row.  Indirect mode
    ([n = 0]), for a width with [W >= 13] and [(W - 9) mod 4 = 0]: with
    [O] the signed big-endian value of the first eight bytes and [L]
    that of the next four, the UTF-8 decoding of the slice
    [str_store[O : O+L]]; this is the decoding of the store's bytes
    [[O, O+L)] when the range lies in the store (a [bytes] object is
    shorter than [2^63]). *)
Theorem dictionary_dual_mode
        (key_store : list Py.bytes) (str_store : Py.bytes)
        (key : Z) (body : Py.bytes) (n : byte) :
  0 <= key ->
  nth_error key_store (Z.to_nat key) = Some (body ++ [n]) ->
  let value := body ++ [n] in
  let W := Z.of_nat (length value) in
  let O := row_offset value in
  let L := row_length value in
  (0 < byte_val n ->
   AllotropeDF._get_string key_store str_store key
   = Py.utf8_decode (firstn (Z.to_nat (byte_val n)) value))
  /\ (byte_val n = 0 -> 13 <= W -> (W - 9) mod 4 = 0 ->
      AllotropeDF._get_string key_store str_store key
      = Py.utf8_decode
          (Py.slice str_store (Some O) (Some (Np.int64 (O + L))))
      /\ (0 <= O -> 0 <= L ->
          O + L <= Z.of_nat (length str_store) < 2 ^ 63 ->
          AllotropeDF._get_string key_store str_store key
          = Py.utf8_decode (store_range str_store O L))).
Proof.
  intros Hkey Hrow value W O L. split.
  - intros Hn. exact (get_string_direct _ str_store _ _ _ Hkey Hrow Hn).
  - intros Hn HW Hmod.
    pose proof (get_string_indirect _ str_store _ _ _ Hkey Hrow Hn HW Hmod)
      as E.
    split; [exact E |].
    intros HO HL Hin. rewrite E. fold value O L.
    rewrite int64_id by lia.
    rewrite store_slice_range by lia. reflexivity.
Qed.

Lemma dictionary_dual_mode_witness :
  AllotropeDF._get_string sample_keys sample_bytes 4 = Ok (Py.lit "hello")
  /\ AllotropeDF._get_string sample_keys sample_bytes 5 = Ok (Py.lit "barx").
Proof.
  split.
  - destruct (dictionary_dual_mode sample_keys sample_bytes 4
                (firstn 12 (direct_row 13 "hello")) x05)
      as [Hdirect _]; [lia | reflexivity |].
    rewrite Hdirect by (vm_compute; reflexivity). reflexivity.
  - destruct (dictionary_dual_mode sample_keys sample_bytes 5
                (firstn 12 (indirect_row 13 10 4)) x00)
      as [_ Hindirect]; [lia | reflexivity |].
    destruct Hindirect as [_ Hrange];
      [reflexivity | vm_compute; discriminate | reflexivity |].
    rewrite Hrange; [reflexivity | | |]; vm_compute; try split; congruence.
Defined.

(** C3, as stated, fails on a table of width 14: key 0 is in range, its
    row is in indirect mode with offset 10 and length 4, and resolution
    raises instead of returning the four bytes at offset 10. *)
Lemma dictionary_dual_mode_counterexample :
  nth_error wide_keys 0 = Some (indirect_row 14 10 4)
  /\ resolve_described wide_keys sample_bytes 0 = Ok (Py.lit "barx")
  /\ AllotropeDF._get_string wide_keys sample_bytes 0 = Raise ValueError.
Proof.
  repeat split.
Qed.

(** C4. An indirect reference that leaves the byte store raises no
    bounds error.  For an in-range key whose row is in indirect mode,
    of a width with [W >= 13] and [(W - 9) mod 4 = 0], with fields
    [0 <= O], [0 < L] and [len(str_store) < O + L < 2^63]: resolution
    is the UTF-8 decoding of the bytes of the store from [O] to its
    end -- fewer than [L] bytes, none when [O] is past the end -- so it
    fails only when those bytes are not valid UTF-8. *)
Theorem indirect_out_of_bounds_truncates
        (key_store : list Py.bytes) (str_store : Py.bytes)
        (key : Z) (body : Py.bytes) (n : byte) :
  0 <= key ->
  nth_error key_store (Z.to_nat key) = Some (body ++ [n]) ->
  let value := body ++ [n] in
  let W := Z.of_nat (length value) in
  let O := row_offset value in
  let L := row_length value in
  byte_val n = 0 -> 13 <= W -> (W - 9) mod 4 = 0 ->
  0 <= O -> 0 < L ->
  Z.of_nat (length str_store) < O + L < 2 ^ 63 ->
  AllotropeDF._get_string key_store str_store key
  = Py.utf8_decode (skipn (Z.to_nat O) str_store)
  /\ Z.of_nat (length (skipn (Z.to_nat O) str_store)) < L.
Proof.
  intros Hkey Hrow value W O L Hn HW Hmod HO HL Hout.
  rewrite (get_string_indirect _ str_store _ _ _ Hkey Hrow Hn HW Hmod).
  fold value O L.
  rewrite int64_id by lia.
  rewrite store_slice_range by lia.
  assert (Hlen : Z.of_nat (length (skipn (Z.to_nat O) str_store)) < L)
    by (rewrite length_skipn; lia).
  split; [| exact Hlen].
  unfold store_range. rewrite firstn_all2 by lia. reflexivity.
Qed.

Lemma indirect_out_of_bounds_truncates_witness :
  AllotropeDF._get_string sample_keys sample_bytes 6 = Ok (Py.lit "barxxxx")
  /\ AllotropeDF._get_string sample_keys sample_bytes 9 = Ok [].
Proof.
  split.
  - destruct (indirect_out_of_bounds_truncates sample_keys sample_bytes 6
                (firstn 12 (indirect_row 13 10 100)) x00) as [E _];
      [by_evaluation .. |].
    rewrite E. reflexivity.
  - destruct (indirect_out_of_bounds_truncates sample_keys sample_bytes 9
                (firstn 12 (indirect_row 13 100 4)) x00) as [E _];
      [by_evaluation .. |].
    rewrite E. reflexivity.
Defined.

(** C4, as stated, fails: key 6 refers to bytes [[10, 110)] of a store
    of 17 bytes and resolves to the 7 bytes that exist; key 9 refers to
    [[100, 104)] and resolves to the empty string. *)
Lemma indirect_bounds_counterexample :
  length sample_bytes = 17%nat
  /\ row_offset (indirect_row 13 10 100) = 10
  /\ row_length (indirect_row 13 10 100) = 100
  /\ AllotropeDF._get_string sample_keys sample_bytes 6
     = Ok (Py.lit "barxxxx")
  /\ row_offset (indirect_row 13 100 4) = 100
  /\ row_length (indirect_row 13 100 4) = 4
  /\ AllotropeDF._get_string sample_keys sample_bytes 9 = Ok [].
Proof.
  repeat split.
Qed.

(** C10. The width of the key rows constrains indirect mode only.  For
    an in-range key whose row has width [W]: an indirect lookup (last
    byte 0) that succeeds has [(W - 9) mod 4 = 0]; when [W - 9] is not a
    multiple of 4 every indirect lookup raises, whatever the offset and
    length bytes are; a direct lookup (last byte [n > 0]) is the
    decoding of the first [n] bytes of the row at every width. *)
Theorem key_row_width_constraint
        (key_store : list Py.bytes) (str_store : Py.bytes)
        (key : Z) (body : Py.bytes) (n : byte) :
  0 <= key ->
  nth_error key_store (Z.to_nat key) = Some (body ++ [n]) ->
  let value := body ++ [n] in
  let W := Z.of_nat (length value) in
  (byte_val n = 0 ->
   is_ok (AllotropeDF._get_string key_store str_store key) = true ->
   (W - 9) mod 4 = 0)
  /\ (byte_val n = 0 -> (W - 9) mod 4 <> 0 ->
      exists e, AllotropeDF._get_string key_store str_store key = Raise e)
  /\ (0 < byte_val n ->
      AllotropeDF._get_string key_store str_store key
      = Py.utf8_decode (firstn (Z.to_nat (byte_val n)) value)).
Proof.
  intros Hkey Hrow value W.
  assert (Hfail : byte_val n = 0 -> (W - 9) mod 4 <> 0 ->
                  exists e,
                    AllotropeDF._get_string key_store str_store key = Raise e).
  { intros Hn Hmod.
    apply (get_string_indirect_width _ str_store _ _ _ Hkey Hrow Hn).
    right. exact Hmod. }
  repeat split.
  - intros Hn Hok.
    destruct (Z.eq_dec ((W - 9) mod 4) 0) as [Hz | Hnz]; [exact Hz |].
    destruct (Hfail Hn Hnz) as [e He]. rewrite He in Hok. discriminate Hok.
  - exact Hfail.
  - intros Hn. exact (get_string_direct _ str_store _ _ _ Hkey Hrow Hn).
Qed.

Lemma key_row_width_constraint_witness :
  (exists e, AllotropeDF._get_string wide_keys sample_bytes 0 = Raise e)
  /\ AllotropeDF._get_string wide_keys sample_bytes 1 = Ok (Py.lit "foo")
  /\ (Z.of_nat (length (indirect_row 13 10 4)) - 9) mod 4 = 0.
Proof.
  split; [| split].
  - destruct (key_row_width_constraint wide_keys sample_bytes 0
                (firstn 13 (indirect_row 14 10 4)) x00)
      as (_ & Hfail & _); [lia | reflexivity |].
    apply Hfail; [reflexivity | vm_compute; discriminate].
  - destruct (key_row_width_constraint wide_keys sample_bytes 1
                (firstn 13 (direct_row 14 "foo")) x03)
      as (_ & _ & Hdirect); [lia | reflexivity |].
    rewrite Hdirect by (vm_compute; reflexivity). reflexivity.
  - destruct (key_row_width_constraint sample_keys sample_bytes 5
                (firstn 12 (indirect_row 13 10 4)) x00)
      as (Hok & _ & _); [lia | reflexivity |].
    apply Hok; reflexivity.
Defined.

(** ** One row of the table *)

Lemma getitem_map {A B : Type} (f : A -> B) (l : list A) (i : Z) :
  Py.getitem (map f l) i = (a <- Py.getitem l i ;; Ok (f a)).
Proof.
  unfold Py.getitem. rewrite length_map, nth_error_map.
  destruct ((if i <? 0 then i + Z.of_nat (length l) else i) <? 0);
    [reflexivity |].
  destruct (Z.of_nat (length l)
            <=? (if i <? 0 then i + Z.of_nat (length l) else i));
    [reflexivity |].
  cbn [orb].
  destruct (nth_error l _); reflexivity.
Qed.

Lemma getitem_middle {A : Type} (pre rest : list A) (a : A) :
  Py.getitem (pre ++ a :: rest) (Z.of_nat (length pre)) = Ok a.
Proof.
  apply getitem_nth; [lia |].
  rewrite Nat2Z.id, nth_error_app2 by lia.
  rewrite Nat.sub_diag. reflexivity.
Qed.

Lemma length_bitwise_and (a : list Z) (m : Z) :
  length (Np.bitwise_and a m) = length a.
Proof.
  apply length_map.
Qed.

Lemma length_right_shift (a : list Z) (n : Z) :
  length (Np.right_shift a n) = length a.
Proof.
  apply length_map.
Qed.

(** The inner loop renders the words of the row one by one, in column
    order. *)
Lemma render_slots_words (key_store : list Py.bytes) (str_store : Py.bytes)
      (rest pre : list Z) (acc : list Py.str) :
  let quad := pre ++ rest in
  AllotropeDF.render_slots key_store str_store
    (Np.bitwise_and (Np.right_shift (Np.right_shift quad 31) 31) 3)
    (Np.bitwise_and (Np.right_shift quad 31) AllotropeDF.node_id_31bit_mask)
    (Np.bitwise_and quad AllotropeDF.node_id_31bit_mask)
    (seq (length pre) (length rest)) acc
  = (r <- mapM (render_word key_store str_store) rest ;; Ok (acc ++ r)).
Proof.
  revert pre acc.
  induction rest as [| w rest IH]; intros pre acc; cbn zeta.
  - cbn. rewrite app_nil_r. reflexivity.
  - cbn [length seq AllotropeDF.render_slots mapM].
    unfold Np.bitwise_and, Np.right_shift.
    rewrite !getitem_map, getitem_middle. cbn [bind].
    unfold render_word at 1.
    destruct (Py.getitem (AllotropeDF.template key_store str_store)
                         (Z.land (Z.shiftr (Z.shiftr w 31) 31) 3))
      as [f | e]; [| reflexivity].
    cbn [bind].
    destruct (f (Z.land (Z.shiftr w 31) AllotropeDF.node_id_31bit_mask)
                (Z.land w AllotropeDF.node_id_31bit_mask))
      as [node | e]; [| reflexivity].
    cbn [bind].
    specialize (IH (pre ++ [w]) (acc ++ [node])).
    cbn zeta in IH. rewrite <- app_assoc in IH. cbn [app] in IH.
    rewrite length_app in IH. cbn [length] in IH.
    rewrite Nat.add_1_r in IH.
    unfold Np.bitwise_and, Np.right_shift in IH. rewrite IH.
    destruct (mapM (render_word key_store str_store) rest) as [r | e];
      [| reflexivity].
    cbn [bind]. rewrite <- app_assoc. reflexivity.
Qed.

Lemma quad_body_words (key_store : list Py.bytes) (str_store : Py.bytes)
      (quads : list (list Z)) (qrow : nat) (store : Py.TextIOWrapper)
      (quad : list Z) :
  nth_error quads qrow = Some quad ->
  AllotropeDF.quad_body key_store str_store quads qrow store
  = (quad_content <- mapM (render_word key_store str_store) quad ;;
     line <- AllotropeDF.quad_line quad_content ;;
     store' <- Py.write store line ;;
     Ok (AllotropeDF.set_row quads qrow (Np.right_shift quad 31), store')).
Proof.
  intros Hrow. unfold AllotropeDF.quad_body, Np.row.
  rewrite (getitem_nth quads (Z.of_nat qrow) quad)
    by (try rewrite Nat2Z.id; first [lia | exact Hrow]).
  cbn [bind].
  rewrite length_bitwise_and, !length_right_shift.
  pose proof (render_slots_words key_store str_store quad [] []) as E.
  cbn [app length] in E. cbv zeta in E. rewrite E.
  rewrite <- bind_assoc.
  destruct (mapM (render_word key_store str_store) quad) as [r | e];
    reflexivity.
Qed.

(** C2. Quad line ordering: a row whose four node slots are stored in
    the column order graph, subject, predicate, object, and render to
    [g], [s], [p] and [o], is written as the line
    [s p o g .] followed by a line feed -- subject, predicate, object,
    then graph, single spaces between them. *)
Theorem quad_line_ordering
        (key_store : list Py.bytes) (str_store : Py.bytes)
        (quads : list (list Z)) (qrow : nat) (store : Py.TextIOWrapper)
        (graph subject predicate object : Z) (g s p o : Py.str) :
  nth_error quads qrow = Some [graph; subject; predicate; object] ->
  render_word key_store str_store graph = Ok g ->
  render_word key_store str_store subject = Ok s ->
  render_word key_store str_store predicate = Ok p ->
  render_word key_store str_store object = Ok o ->
  AllotropeDF.quad_body key_store str_store quads qrow store
  = (store' <- Py.write store
                 (s ++ Py.lit " " ++ p ++ Py.lit " " ++ o ++ Py.lit " "
                    ++ g ++ Py.lit " ." ++ [10]) ;;
     Ok (AllotropeDF.set_row quads qrow
           (Np.right_shift [graph; subject; predicate; object] 31),
         store')).
Proof.
  intros Hrow Hg Hs Hp Ho.
  rewrite (quad_body_words _ _ _ _ _ _ Hrow).
  cbn [mapM]. rewrite Hg, Hs, Hp, Ho. cbn [bind].
  unfold AllotropeDF.quad_line. rewrite getitem_head, slice_tail.
  cbn [bind Py.join].
  rewrite <- !app_assoc. reflexivity.
Qed.

Lemma quad_line_ordering_witness :
  AllotropeDF.quad_body sample_keys sample_bytes [sample_quad] 0
                        Py.new_TextIOWrapper
  = (store' <- Py.write Py.new_TextIOWrapper
                 (Py.lit "<http://ex/s>" ++ Py.lit " "
                    ++ Py.lit "<http://ex/p>" ++ Py.lit " "
                    ++ ([34] ++ Py.lit "hello" ++ [34]) ++ Py.lit " "
                    ++ Py.lit "_:g1" ++ Py.lit " ." ++ [10]) ;;
     Ok (AllotropeDF.set_row [sample_quad] 0
           (Np.right_shift sample_quad 31),
         store')).
Proof.
  apply (quad_line_ordering sample_keys sample_bytes [sample_quad] 0%nat
           Py.new_TextIOWrapper
           (pack_node 0 0 0) (pack_node 1 1 2) (pack_node 1 1 3)
           (pack_node 2 0 4));
    reflexivity.
Defined.

(** ** Rendering the three kinds of node *)

Lemma replace_single (s : Py.str) (a : Z) (new : Py.str) :
  Py.replace s [a] new = flat_map (fun c => if c =? a then new else [c]) s.
Proof.
  unfold Py.replace.
  induction s as [| c s IH]; [reflexivity |].
  cbn [Py.replace_from Py.starts_with length Nat.sub flat_map].
  rewrite Z.eqb_sym, andb_true_r.
  destruct (c =? a); rewrite IH; reflexivity.
Qed.

Lemma flat_map_flat_map {A B C : Type} (f : A -> list B) (g : B -> list C)
      (l : list A) :
  flat_map g (flat_map f l) = flat_map (fun a => flat_map g (f a)) l.
Proof.
  induction l as [| a l IH]; [reflexivity |].
  cbn [flat_map]. rewrite flat_map_app, IH. reflexivity.
Qed.

Lemma escape_is_in_order (val : Py.str) :
  AllotropeDF.escape val = escape_in_order val.
Proof.
  reflexivity.
Qed.

(** The seven passes over the string amount to one pass that maps each
    character by [escape_char]: no pass inserts a character that a
    later pass replaces. *)
Lemma escape_by_char (val : Py.str) :
  AllotropeDF.escape val = flat_map escape_char val.
Proof.
  rewrite escape_is_in_order. unfold escape_in_order, escape_table.
  cbn [fold_left fst snd].
  rewrite !replace_single, !flat_map_flat_map.
  apply flat_map_ext. intros c. unfold escape_char.
  destruct (Z.eqb_spec c 34) as [-> | _]; [reflexivity |].
  cbn [flat_map app].
  destruct (Z.eqb_spec c 39) as [-> | _]; [reflexivity |].
  cbn [flat_map app].
  destruct (Z.eqb_spec c 9) as [-> | _]; [reflexivity |].
  cbn [flat_map app].
  destruct (Z.eqb_spec c 10) as [-> | _]; [reflexivity |].
  cbn [flat_map app].
  destruct (Z.eqb_spec c 13) as [-> | _]; [reflexivity |].
  cbn [flat_map app].
  destruct (Z.eqb_spec c 8) as [-> | _]; [reflexivity |].
  cbn [flat_map app].
  destruct (Z.eqb_spec c 12) as [-> | _]; reflexivity.
Qed.

(** C6. Literal escaping: the literal rule escapes the resolved value
    by the seven substitutions in the listed order (double quote,
    single quote, tab, line feed, carriage return, backspace, form
    feed, each to a backslash and a letter or the quote itself); the
    result is the value with each of these characters replaced and
    every other character, the backslash included, left as it is. *)
Theorem literal_escaping
        (key_store : list Py.bytes) (str_store : Py.bytes)
        (res_key val_key : Z) :
  AllotropeDF._literal_node key_store str_store res_key val_key
  = (val <- AllotropeDF._get_string key_store str_store val_key ;;
     let escaped := escape_in_order val in
     if res_key =? 0 then Ok ([34] ++ escaped ++ [34])
     else
       res <- AllotropeDF._get_string key_store str_store res_key ;;
       Ok ([34] ++ escaped ++ [34] ++ Py.lit "^^<" ++ res ++ Py.lit ">"))
  /\ (forall val : Py.str, escape_in_order val = flat_map escape_char val)
  /\ escape_char 92 = [92].
Proof.
  split; [reflexivity |]. split; [| reflexivity].
  intros val. rewrite <- escape_is_in_order. apply escape_by_char.
Qed.

(** [he said "hi"], a line feed, [bye\], with a trailing backslash. *)
Example literal_escaping_sample :
  AllotropeDF.escape
    (Py.lit "he said " ++ [34] ++ Py.lit "hi" ++ [34; 10]
       ++ Py.lit "bye" ++ [92])
  = Py.lit "he said " ++ [92; 34] ++ Py.lit "hi" ++ [92; 34]
      ++ [92; 110] ++ Py.lit "bye" ++ [92].
Proof.
  reflexivity.
Qed.

(** The blank-node rule on a non-empty string: [_:] followed by the
    string without its first character when that is [-], and by the
    whole string otherwise; only one [-] is removed and the resource key
    does not enter the result. *)
Lemma blank_node_nonempty
      (key_store : list Py.bytes) (str_store : Py.bytes)
      (res_key val_key : Z) (c : Z) (rest : Py.str) :
  AllotropeDF._get_string key_store str_store val_key = Ok (c :: rest) ->
  AllotropeDF._blank_node key_store str_store res_key val_key
  = Ok (Py.lit "_:" ++ (if c =? 45 then rest else c :: rest)).
Proof.
  intros Hval. unfold AllotropeDF._blank_node.
  rewrite Hval. cbn [bind]. rewrite getitem_head. cbn [bind].
  rewrite slice_tail. reflexivity.
Qed.

Example blank_node_samples :
  AllotropeDF._blank_node sample_keys sample_bytes 5 8 = Ok (Py.lit "_:b1")
  /\ AllotropeDF._blank_node sample_keys sample_bytes 0 0 = Ok (Py.lit "_:g1").
Proof.
  split.
  - apply (blank_node_nonempty sample_keys sample_bytes 5 8 45 (Py.lit "b1")).
    reflexivity.
  - apply (blank_node_nonempty sample_keys sample_bytes 0 0 103 (Py.lit "1")).
    reflexivity.
Qed.

(** C7. Where the claim breaks: when the value key resolves to the
    empty string the blank-node rule does not emit [_:]; the test
    [val[0] == "-"] indexes the empty string and raises [IndexError],
    whatever the resource key. *)
Theorem blank_node_empty_raises
        (key_store : list Py.bytes) (str_store : Py.bytes)
        (res_key val_key : Z) :
  AllotropeDF._get_string key_store str_store val_key = Ok [] ->
  AllotropeDF._blank_node key_store str_store res_key val_key
  = Raise IndexError.
Proof.
  intros Hval. unfold AllotropeDF._blank_node.
  rewrite Hval. cbn [bind]. rewrite getitem_nil. reflexivity.
Qed.

Lemma blank_node_empty_raises_witness :
  AllotropeDF._get_string sample_keys sample_bytes 7 = Ok []
  /\ AllotropeDF._blank_node sample_keys sample_bytes 0 7 = Raise IndexError.
Proof.
  split.
  - reflexivity.
  - apply (blank_node_empty_raises sample_keys sample_bytes 0 7).
    reflexivity.
Defined.

Lemma template_dispatch (key_store : list Py.bytes) (str_store : Py.bytes) :
  let template := AllotropeDF.template key_store str_store in
  Py.getitem template 0 = Ok (AllotropeDF._blank_node key_store str_store)
  /\ Py.getitem template 1
     = Ok (AllotropeDF._resource_node key_store str_store)
  /\ Py.getitem template 2
     = Ok (AllotropeDF._literal_node key_store str_store)
  /\ Py.getitem template 3 = Raise IndexError.
Proof.
  cbv zeta. split; [| split; [| split]]; reflexivity.
Qed.

(** C8. Untyped-literal sentinel: a node of kind 2 whose value key
    resolves to [val] renders, when its resource key is 0, as the
    escaped value between double quotes and nothing more, and, when its
    resource key is not 0 and resolves to [res], as the same followed by
    [^^<], [res] and [>]. *)
Theorem untyped_literal_sentinel
        (key_store : list Py.bytes) (str_store : Py.bytes)
        (res_key val_key : Z) (val : Py.str) :
  0 <= res_key < 2 ^ 31 -> 0 <= val_key < 2 ^ 31 ->
  AllotropeDF._get_string key_store str_store val_key = Ok val ->
  (res_key = 0 ->
   render_word key_store str_store (pack_node 2 res_key val_key)
   = Ok ([34] ++ AllotropeDF.escape val ++ [34]))
  /\ (res_key <> 0 ->
      forall res : Py.str,
        AllotropeDF._get_string key_store str_store res_key = Ok res ->
        render_word key_store str_store (pack_node 2 res_key val_key)
        = Ok ([34] ++ AllotropeDF.escape val ++ [34]
                ++ Py.lit "^^<" ++ res ++ Py.lit ">")).
Proof.
  intros Hres Hval Hv.
  destruct (packed_fields 2 res_key val_key) as (Ev & Er & Ek); try lia.
  cbv zeta in Ev, Er, Ek.
  unfold render_word. rewrite Ev, Er, Ek.
  destruct (template_dispatch key_store str_store) as (_ & _ & E2 & _).
  cbv zeta in E2. rewrite E2. cbn [bind].
  unfold AllotropeDF._literal_node. rewrite Hv. cbn [bind].
  split.
  - intros ->. reflexivity.
  - intros Hnz res Hr.
    destruct (Z.eqb_spec res_key 0); [contradiction |].
    rewrite Hr. reflexivity.
Qed.

Lemma untyped_literal_sentinel_witness :
  render_word sample_keys sample_bytes (pack_node 2 0 4)
  = Ok ([34] ++ Py.lit "hello" ++ [34])
  /\ render_word sample_keys sample_bytes (pack_node 2 1 4)
     = Ok ([34] ++ Py.lit "hello" ++ [34]
             ++ Py.lit "^^<" ++ Py.lit "http://ex/" ++ Py.lit ">").
Proof.
  split.
  - destruct (untyped_literal_sentinel sample_keys sample_bytes 0 4
                (Py.lit "hello")) as [Hzero _];
      [lia | lia | reflexivity |].
    rewrite Hzero by reflexivity. reflexivity.
  - destruct (untyped_literal_sentinel sample_keys sample_bytes 1 4
                (Py.lit "hello")) as [_ Htyped];
      [lia | lia | reflexivity |].
    rewrite (Htyped ltac:(lia) (Py.lit "http://ex/")) by reflexivity.
    reflexivity.
Defined.

(** ** The loop over the table *)

Lemma set_row_middle (done todo : list (list Z)) (old new : list Z) :
  AllotropeDF.set_row (done ++ old :: todo) (length done) new
  = (done ++ [new]) ++ todo.
Proof.
  induction done as [| r done IH]; [reflexivity |].
  cbn [app length AllotropeDF.set_row]. rewrite IH. reflexivity.
Qed.

Lemma quad_body_emit_row (key_store : list Py.bytes) (str_store : Py.bytes)
      (done todo : list (list Z)) (quad : list Z)
      (store : Py.TextIOWrapper) :
  AllotropeDF.quad_body key_store str_store (done ++ quad :: todo)
                        (length done) store
  = (store' <- emit_row key_store str_store quad store ;;
     Ok ((done ++ [Np.right_shift quad 31]) ++ todo, store')).
Proof.
  rewrite (quad_body_words _ _ _ _ _ quad)
    by (rewrite nth_error_app2, Nat.sub_diag by lia; reflexivity).
  rewrite set_row_middle. unfold emit_row.
  destruct (mapM (render_word key_store str_store) quad) as [c | e];
    [| reflexivity].
  cbn [bind].
  destruct (AllotropeDF.quad_line c) as [line | e]; reflexivity.
Qed.

Lemma quad_body_past_end (key_store : list Py.bytes) (str_store : Py.bytes)
      (quads : list (list Z)) (store : Py.TextIOWrapper) :
  AllotropeDF.quad_body key_store str_store quads (length quads) store
  = Raise IndexError.
Proof.
  unfold AllotropeDF.quad_body, Np.row.
  rewrite getitem_out_of_range by lia. reflexivity.
Qed.

(** The loop over [range(num_quads)], started at row [length done] with
    [n] indices left: it writes the rows it is allowed to, and raises
    when the allowed count exceeds the rows that are there. *)
Lemma quads_loop_rows (key_store : list Py.bytes) (str_store : Py.bytes)
      (num_good_quads : Z) (n : nat) :
  forall (done todo : list (list Z)) (store : Py.TextIOWrapper),
    AllotropeDF.quads_loop key_store str_store num_good_quads
                           (seq (length done) n) (done ++ todo) store
    = let limit :=
        Nat.min n (Z.to_nat (num_good_quads - Z.of_nat (length done))) in
      if (limit <=? length todo)%nat
      then emit_rows key_store str_store (firstn limit todo) store
      else (store' <- emit_rows key_store str_store todo store ;;
            Raise IndexError).
Proof.
  induction n as [| n IH]; intros done todo store; cbv zeta.
  - reflexivity.
  - cbn [seq AllotropeDF.quads_loop].
    destruct (Z.geb_spec (Z.of_nat (length done)) num_good_quads)
      as [Hstop | Hgo].
    + replace (Z.to_nat (num_good_quads - Z.of_nat (length done)))
        with 0%nat by lia.
      rewrite Nat.min_0_r. reflexivity.
    + replace (Z.to_nat (num_good_quads - Z.of_nat (length done)))
        with (S (Z.to_nat (num_good_quads - Z.of_nat (S (length done)))))
        by lia.
      rewrite <- Nat.succ_min_distr.
      destruct todo as [| quad todo].
      * rewrite app_nil_r, quad_body_past_end. reflexivity.
      * rewrite quad_body_emit_row.
        cbn [length Nat.leb firstn emit_rows].
        destruct (emit_row key_store str_store quad store) as [store' | e].
        -- cbn [bind].
           specialize (IH (done ++ [Np.right_shift quad 31]) todo store').
           rewrite length_app in IH. cbn [length] in IH.
           rewrite Nat.add_1_r in IH. cbv zeta in IH.
           rewrite IH. reflexivity.
        -- cbn [bind].
           destruct (_ <=? _)%nat; reflexivity.
Qed.

Lemma get_quads_rows (h5f : H5File) (valid : list (list Z))
      (store : Py.TextIOWrapper) :
  AllotropeDF.select_valid (h5_quads h5f) = Ok valid ->
  AllotropeDF._get_quads h5f store
  = let key_store := h5_dictionary_keys h5f in
    let str_store := h5_dictionary_bytes h5f in
    let limit :=
      Nat.min (length (h5_quads h5f)) (Z.to_nat (h5_quads_size h5f)) in
    if (limit <=? length valid)%nat
    then emit_rows key_store str_store (firstn limit valid) store
    else (store' <- emit_rows key_store str_store valid store ;;
          Raise IndexError).
Proof.
  intros Hvalid. unfold AllotropeDF._get_quads.
  rewrite Hvalid. cbn [bind].
  pose proof (quads_loop_rows (h5_dictionary_keys h5f)
                (h5_dictionary_bytes h5f) (h5_quads_size h5f)
                (length (h5_quads h5f)) [] valid store) as E.
  cbn [length app] in E. rewrite Z.sub_0_r in E. exact E.
Qed.

(** ** Valid rows and the [size] attribute *)

Lemma slice_m1 {A : Type} (body : list A) (n : A) :
  Py.slice (body ++ [n]) None (Some (-1)) = body.
Proof.
  unfold Py.slice, Py.adjust_index. rewrite length_app. cbn [length].
  change (-1 <? 0) with true. cbv iota.
  rewrite Z.max_r by lia. cbn [Z.to_nat skipn].
  replace (Z.to_nat (-1 + Z.of_nat (length body + 1) - 0))
    with (length body) by lia.
  rewrite firstn_app, Nat.sub_diag, firstn_all. cbn [firstn].
  apply app_nil_r.
Qed.

(** The rows kept are those whose last column is 0, in table order,
    each without its last column. *)
Lemma select_valid_filter (quads : list (list Z)) :
  Forall (fun r => r <> []) quads ->
  AllotropeDF.select_valid quads
  = Ok (map (@removelast Z) (filter (fun r => last r 1 =? 0) quads)).
Proof.
  induction 1 as [| r quads Hr _ IH]; [reflexivity |].
  cbn [AllotropeDF.select_valid filter].
  destruct (exists_last Hr) as (body & flag & ->).
  rewrite getitem_last, IH. cbn [bind].
  rewrite slice_m1, last_last.
  destruct (flag =? 0); [| reflexivity].
  cbn [map]. rewrite removelast_last. reflexivity.
Qed.

Lemma select_valid_length (quads valid : list (list Z)) :
  AllotropeDF.select_valid quads = Ok valid ->
  (length valid <= length quads)%nat.
Proof.
  revert valid.
  induction quads as [| r quads IH]; intros valid H.
  - injection H as <-. reflexivity.
  - cbn [AllotropeDF.select_valid] in H.
    destruct (Py.getitem r (-1)) as [flag | e]; [| discriminate H].
    cbn [bind] in H.
    destruct (AllotropeDF.select_valid quads) as [rest | e];
      [| discriminate H].
    cbn [bind] in H. specialize (IH rest eq_refl).
    injection H as <-.
    destruct (flag =? 0); cbn [length]; lia.
Qed.

(** With a [size] attribute within the valid rows, the first [size] of
    them are written, in order. *)
Lemma get_quads_truncates (h5f : H5File) (valid : list (list Z))
      (store : Py.TextIOWrapper) :
  AllotropeDF.select_valid (h5_quads h5f) = Ok valid ->
  h5_quads_size h5f <= Z.of_nat (length valid) ->
  AllotropeDF._get_quads h5f store
  = emit_rows (h5_dictionary_keys h5f) (h5_dictionary_bytes h5f)
              (firstn (Z.to_nat (h5_quads_size h5f)) valid) store.
Proof.
  intros Hvalid Hsize. rewrite (get_quads_rows _ _ _ Hvalid). cbv zeta.
  pose proof (select_valid_length _ _ Hvalid) as Hlen.
  rewrite Nat.min_r by lia.
  destruct (Nat.leb_spec (Z.to_nat (h5_quads_size h5f)) (length valid));
    [reflexivity | lia].
Qed.

Example counted_file_rows :
  AllotropeDF._get_quads counted_file Py.new_TextIOWrapper
  = emit_rows sample_keys sample_bytes [sample_quad; sample_quad]
              Py.new_TextIOWrapper.
Proof.
  apply (get_quads_truncates counted_file [sample_quad; sample_quad]).
  - reflexivity.
  - cbn. lia.
Qed.

(** With every row valid, a larger [size] attribute is clamped: the
    loop ends with [range(num_quads)]. *)
Lemma get_quads_clamps_all_valid (h5f : H5File) (valid : list (list Z))
      (store : Py.TextIOWrapper) :
  AllotropeDF.select_valid (h5_quads h5f) = Ok valid ->
  length valid = length (h5_quads h5f) ->
  Z.of_nat (length valid) <= h5_quads_size h5f ->
  AllotropeDF._get_quads h5f store
  = emit_rows (h5_dictionary_keys h5f) (h5_dictionary_bytes h5f) valid store.
Proof.
  intros Hvalid Hall Hsize. rewrite (get_quads_rows _ _ _ Hvalid). cbv zeta.
  rewrite Nat.min_l by lia. rewrite <- Hall, Nat.leb_refl, firstn_all.
  reflexivity.
Qed.

(** C5. Where the claim breaks: with at least one invalid row in the
    table and a [size] attribute above the number of valid rows, the
    decoder does not stop after the valid rows.  Row index
    [length valid] passes both loop guards -- it is below [num_quads],
    counted before the filter, and below [size] -- and indexing the
    filtered table there raises [IndexError]; the run never returns a
    store. *)
Theorem overcounted_size_raises (h5f : H5File) (valid : list (list Z))
        (store : Py.TextIOWrapper) :
  AllotropeDF.select_valid (h5_quads h5f) = Ok valid ->
  (length valid < length (h5_quads h5f))%nat ->
  Z.of_nat (length valid) < h5_quads_size h5f ->
  AllotropeDF._get_quads h5f store
  = (store' <- emit_rows (h5_dictionary_keys h5f) (h5_dictionary_bytes h5f)
                         valid store ;;
     Raise IndexError)
  /\ is_ok (AllotropeDF._get_quads h5f store) = false.
Proof.
  intros Hvalid Hinvalid Hsize.
  assert (E : AllotropeDF._get_quads h5f store
              = (store' <- emit_rows (h5_dictionary_keys h5f)
                                     (h5_dictionary_bytes h5f) valid store ;;
                 Raise IndexError)).
  { rewrite (get_quads_rows _ _ _ Hvalid). cbv zeta.
    destruct (Nat.leb_spec
                (Nat.min (length (h5_quads h5f))
                         (Z.to_nat (h5_quads_size h5f)))
                (length valid)); [lia | reflexivity]. }
  split; [exact E |].
  rewrite E. destruct (emit_rows _ _ valid store); reflexivity.
Qed.

Lemma overcounted_size_raises_witness :
  AllotropeDF._get_quads overcounted_file Py.new_TextIOWrapper
  = Raise IndexError
  /\ is_ok (AllotropeDF._get_quads overcounted_all_valid_file
                                   Py.new_TextIOWrapper) = true.
Proof.
  split; [| reflexivity].
  destruct (overcounted_size_raises overcounted_file
              [sample_quad; sample_quad] Py.new_TextIOWrapper) as [E _];
    [reflexivity | cbn; lia | cbn; lia |].
  rewrite E. reflexivity.
Defined.

(** ** Buffering of the output *)

(** The first row that fails ends the run with its exception. *)
Lemma emit_rows_first_failure (key_store : list Py.bytes)
      (str_store : Py.bytes) (pre post : list (list Z)) (quad : list Z)
      (store store1 : Py.TextIOWrapper) (e : exn) :
  emit_rows key_store str_store pre store = Ok store1 ->
  emit_row key_store str_store quad store1 = Raise e ->
  emit_rows key_store str_store (pre ++ quad :: post) store = Raise e.
Proof.
  revert store.
  induction pre as [| r pre IH]; intros store Hpre Hquad.
  - injection Hpre as ->. cbn [app emit_rows]. rewrite Hquad. reflexivity.
  - cbn [app emit_rows] in *.
    destruct (emit_row key_store str_store r store) as [store0 | e0];
      [| discriminate Hpre].
    cbn [bind] in *. exact (IH _ Hpre Hquad).
Qed.

(** A slot of kind 3 has no entry in [template]. *)
Lemma reserved_kind_raises (key_store : list Py.bytes)
      (str_store : Py.bytes) (res_key val_key : Z) :
  0 <= res_key < 2 ^ 31 -> 0 <= val_key < 2 ^ 31 ->
  render_word key_store str_store (pack_node 3 res_key val_key)
  = Raise IndexError.
Proof.
  intros Hres Hval.
  destruct (packed_fields 3 res_key val_key) as (_ & _ & Ek); try lia.
  cbv zeta in Ek. unfold render_word. rewrite Ek. reflexivity.
Qed.

Section Atomicity.

Variable Graph : Type.
Variable g_parse : Py.bytes -> result Graph.
Variable g_serialize :
  Graph -> Format -> Destination -> result unit * Destination.


End Atomicity.



(** The failures of the decoder on the sample tables -- a reserved
    kind, a key past the key table, bytes that are not UTF-8 -- each
    after or before rows that decode: the destination keeps what it
    had. *)
Example decode_failures_abort :
  forall (destination : Destination) (format : Format),
    AllotropeDF.dump_ld Py.bytes sample_parse sample_serialize
                        reserved_kind_file destination format
    = (Raise IndexError, destination)
    /\ AllotropeDF.dump_ld Py.bytes sample_parse sample_serialize
                           missing_key_file destination format
       = (Raise IndexError, destination)
    /\ AllotropeDF.dump_ld Py.bytes sample_parse sample_serialize
                           invalid_utf8_file destination format
       = (Raise UnicodeDecodeError, destination).
Proof.
  intros destination format. split; [| split]; reflexivity.
Qed.

(** ** Every word of the table *)

Lemma word_fields_arith (w : Z) :
  word_value_key w = w mod 2 ^ 31
  /\ word_key w = (w / 2 ^ 31) mod 2 ^ 31
  /\ word_kind w = (w / 2 ^ 62) mod 4.
Proof.
  unfold word_value_key, word_key, word_kind.
  change AllotropeDF.node_id_31bit_mask with (Z.ones 31).
  change 3 with (Z.ones 2).
  rewrite Z.shiftr_shiftr by lia.
  rewrite !Z.land_ones by lia.
  rewrite !Z.shiftr_div_pow2 by lia.
  repeat split.
Qed.

Lemma word_fields_range (w : Z) :
  0 <= word_kind w < 4
  /\ 0 <= word_key w < 2 ^ 31
  /\ 0 <= word_value_key w < 2 ^ 31.
Proof.
  destruct (word_fields_arith w) as (-> & -> & ->).
  repeat split; try (apply Z.mod_pos_bound; lia).
Qed.

Lemma word_repack (w : Z) :
  in_int64 w -> pack_node (word_kind w) (word_key w) (word_value_key w) = w.
Proof.
  intros Hw. unfold pack_node.
  destruct (word_fields_range w) as (Hk & Hr & Hv).
  rewrite packed_bits by assumption.
  destruct (word_fields_arith w) as (-> & -> & ->).
  unfold Np.int64, in_int64 in *.
  change (2 ^ 64) with 18446744073709551616 in *.
  change (2 ^ 63) with 9223372036854775808 in *.
  change (2 ^ 62) with 4611686018427387904 in *.
  change (2 ^ 31) with 2147483648 in *.
  Z.to_euclidean_division_equations. lia.
Qed.

Lemma decode_row_words (quad : list Z) :
  decode_row quad
  = (map word_value_key quad, Np.right_shift quad 31,
     map word_key quad, map word_kind quad).
Proof.
  unfold decode_row, Np.bitwise_and, Np.right_shift.
  rewrite !map_map. reflexivity.
Qed.

(** X1. Decoding is total and loses nothing: for every row of [int64]
    words the three arrays of the loop body hold a kind in [0, 4) and
    two keys in [0, 2^31) for each word, and packing the three fields of
    a slot again gives the word the slot held. *)
Theorem decode_row_repacks (quad : list Z) :
  Forall in_int64 quad ->
  let '(node_value_key, _, node_key, node_kind) := decode_row quad in
  Forall (fun k => 0 <= k < 4) node_kind
  /\ Forall (fun r => 0 <= r < 2 ^ 31) node_key
  /\ Forall (fun v => 0 <= v < 2 ^ 31) node_value_key
  /\ map (fun krv => pack_node (fst krv) (fst (snd krv)) (snd (snd krv)))
         (combine node_kind (combine node_key node_value_key))
     = quad.
Proof.
  intros Hq. rewrite decode_row_words.
  repeat split.
  - apply Forall_map, Forall_forall. intros w _.
    apply (word_fields_range w).
  - apply Forall_map, Forall_forall. intros w _.
    apply (word_fields_range w).
  - apply Forall_map, Forall_forall. intros w _.
    apply (word_fields_range w).
  - induction Hq as [| w quad Hw _ IH]; [reflexivity |].
    cbn [map combine fst snd]. rewrite IH, word_repack by exact Hw.
    reflexivity.
Qed.

Lemma decode_row_repacks_witness :
  let quad := [-1; 0; - 2 ^ 63; 2 ^ 63 - 1; -4611686018427387905] in
  Forall in_int64 quad
  /\ (let '(node_value_key, _, node_key, node_kind) := decode_row quad in
      node_kind = [3; 0; 2; 1; 2]
      /\ map (fun krv => pack_node (fst krv) (fst (snd krv)) (snd (snd krv)))
             (combine node_kind (combine node_key node_value_key))
         = quad).
Proof.
  cbv zeta.
  assert (H : Forall in_int64
                [-1; 0; - 2 ^ 63; 2 ^ 63 - 1; -4611686018427387905])
    by (repeat constructor; unfold in_int64; lia).
  split; [exact H |].
  pose proof (decode_row_repacks _ H) as R.
  destruct (decode_row _) as [[[nvk q] nk] nkind] eqn:E.
  destruct R as (_ & _ & _ & R).
  split; [| exact R].
  vm_compute in E. injection E as _ _ _ <-. reflexivity.
Defined.

Lemma render_word_fields (key_store : list Py.bytes) (str_store : Py.bytes)
      (w : Z) :
  render_word key_store str_store w
  = (f <- Py.getitem (AllotropeDF.template key_store str_store)
                     (word_kind w) ;;
     f (word_key w) (word_value_key w)).
Proof.
  reflexivity.
Qed.

Lemma word_kind_by_sign (w : Z) :
  in_int64 w ->
  (0 <= w < 2 ^ 62 -> word_kind w = 0)
  /\ (2 ^ 62 <= w -> word_kind w = 1)
  /\ (w < - 2 ^ 62 -> word_kind w = 2)
  /\ (- 2 ^ 62 <= w < 0 -> word_kind w = 3).
Proof.
  intros Hw. destruct (word_fields_arith w) as (_ & _ & ->).
  unfold in_int64 in Hw.
  change (2 ^ 63) with 9223372036854775808 in *.
  change (2 ^ 62) with 4611686018427387904 in *.
  repeat split; intros H; Z.to_euclidean_division_equations; lia.
Qed.

(** X2. The kind of a node is the sign range of its [int64] word:
    words in [0, 2^62) are blank nodes, words from [2^62] up are
    resources, words below [-2^62] are literals, and the negative words
    from [-2^62] up have the reserved kind 3, for which the lookup in
    [template] raises [IndexError] whatever the dictionary holds. *)
Theorem kind_by_sign (key_store : list Py.bytes) (str_store : Py.bytes)
        (w : Z) :
  in_int64 w ->
  (0 <= w < 2 ^ 62 ->
   render_word key_store str_store w
   = AllotropeDF._blank_node key_store str_store
       (word_key w) (word_value_key w))
  /\ (2 ^ 62 <= w ->
      render_word key_store str_store w
      = AllotropeDF._resource_node key_store str_store
          (word_key w) (word_value_key w))
  /\ (w < - 2 ^ 62 ->
      render_word key_store str_store w
      = AllotropeDF._literal_node key_store str_store
          (word_key w) (word_value_key w))
  /\ (- 2 ^ 62 <= w < 0 ->
      render_word key_store str_store w = Raise IndexError).
Proof.
  intros Hw.
  destruct (word_kind_by_sign w Hw) as (H0 & H1 & H2 & H3).
  repeat split; intros H; rewrite render_word_fields.
  - rewrite (H0 H). reflexivity.
  - rewrite (H1 H). reflexivity.
  - rewrite (H2 H). reflexivity.
  - rewrite (H3 H). reflexivity.
Qed.

Lemma kind_by_sign_witness :
  render_word sample_keys sample_bytes 8 = Ok (Py.lit "_:b1")
  /\ render_word sample_keys sample_bytes (2 ^ 62 + 2 ^ 31 + 2)
     = Ok (Py.lit "<http://ex/s>")
  /\ render_word sample_keys sample_bytes (- 2 ^ 63 + 4)
     = Ok ([34] ++ Py.lit "hello" ++ [34])
  /\ render_word sample_keys sample_bytes (-1) = Raise IndexError.
Proof.
  assert (Hin : forall w, - 2 ^ 63 <= w < 2 ^ 63 -> in_int64 w)
    by (intros w H; exact H).
  split; [| split; [| split]].
  - destruct (kind_by_sign sample_keys sample_bytes 8) as (H & _);
      [apply Hin; lia |].
    rewrite H by lia. reflexivity.
  - destruct (kind_by_sign sample_keys sample_bytes (2 ^ 62 + 2 ^ 31 + 2))
      as (_ & H & _); [apply Hin; lia |].
    rewrite H by lia. reflexivity.
  - destruct (kind_by_sign sample_keys sample_bytes (- 2 ^ 63 + 4))
      as (_ & _ & H & _); [apply Hin; lia |].
    rewrite H by lia. reflexivity.
  - destruct (kind_by_sign sample_keys sample_bytes (-1))
      as (_ & _ & _ & H); [apply Hin; lia |].
    apply H. lia.
Defined.

(** X3. A missing value key: a word whose value key is at or past the
    end of the key table raises [IndexError] whatever its kind and its
    resource key -- every rule resolves the value key first, and kind 3
    has no rule. *)
Theorem missing_value_key_raises
        (key_store : list Py.bytes) (str_store : Py.bytes) (w : Z) :
  Z.of_nat (length key_store) <= word_value_key w ->
  render_word key_store str_store w = Raise IndexError.
Proof.
  intros Hmiss. rewrite render_word_fields.
  pose proof (get_string_out_of_range key_store str_store _ Hmiss) as E.
  destruct (word_fields_range w) as (Hk & _ & _).
  assert (Hcases : word_kind w = 0 \/ word_kind w = 1
                   \/ word_kind w = 2 \/ word_kind w = 3) by lia.
  destruct Hcases as [-> | [-> | [-> | ->]]]; cbn [bind].
  - change (AllotropeDF._blank_node key_store str_store (word_key w)
              (word_value_key w) = Raise IndexError).
    unfold AllotropeDF._blank_node. rewrite E. reflexivity.
  - change (AllotropeDF._resource_node key_store str_store (word_key w)
              (word_value_key w) = Raise IndexError).
    unfold AllotropeDF._resource_node. rewrite E. reflexivity.
  - change (AllotropeDF._literal_node key_store str_store (word_key w)
              (word_value_key w) = Raise IndexError).
    unfold AllotropeDF._literal_node. rewrite E. reflexivity.
  - reflexivity.
Qed.

Lemma missing_value_key_raises_witness :
  render_word sample_keys sample_bytes (pack_node 0 0 10) = Raise IndexError
  /\ render_word sample_keys sample_bytes (pack_node 1 1 2147483647)
     = Raise IndexError
  /\ render_word sample_keys sample_bytes (pack_node 2 0 10)
     = Raise IndexError.
Proof.
  split; [| split];
    apply (missing_value_key_raises sample_keys sample_bytes);
    vm_compute; discriminate.
Defined.

(** ** UTF-8 *)

Lemma byte_val_range (b : byte) : 0 <= byte_val b < 256.
Proof.
  unfold byte_val. pose proof (Byte.to_N_bounded b). lia.
Qed.

Lemma mk_byte_val (b : byte) : mk_byte (byte_val b) = b.
Proof.
  unfold mk_byte, byte_val. rewrite N2Z.id, Byte.of_to_N. reflexivity.
Qed.

Lemma byte_val_mk (z : Z) : 0 <= z < 256 -> byte_val (mk_byte z) = z.
Proof.
  intros Hz. unfold mk_byte, byte_val.
  destruct (Byte.of_N (Z.to_N z)) as [b |] eqn:E.
  - apply Byte.to_of_N in E. rewrite E. lia.
  - apply Byte.of_N_None_iff in E. lia.
Qed.

(** Turns the comparisons of a hypothesis into facts. *)
Ltac split_cmp H :=
  repeat match type of H with
         | context [?a =? ?b] => destruct (Z.eqb_spec a b); cbv iota in H
         end;
  repeat match type of H with
         | context [?a <? ?b] => destruct (Z.ltb_spec a b)
         | context [?a <=? ?b] => destruct (Z.leb_spec a b)
         end;
  cbn [andb] in H.

Ltac split_cmp_goal :=
  repeat match goal with
         | |- context [?a <? ?b] =>
             destruct (Z.ltb_spec a b); try (exfalso; lia)
         | |- context [?a <=? ?b] =>
             destruct (Z.leb_spec a b); try (exfalso; lia)
         end;
  cbn [andb].

(** The byte that encodes a value computed from decoded bytes. *)
Ltac same_byte :=
  match goal with
  | |- mk_byte _ = ?b =>
      transitivity (mk_byte (byte_val b));
      [ f_equal; Z.to_euclidean_division_equations; lia
      | apply mk_byte_val ]
  end.

Ltac decode_step_rest :=
  eexists; split; [reflexivity |];
  split; [| split; [cbn [length]; lia | reflexivity]].

(** One step of the decoder: it raises [UnicodeDecodeError], or it
    consumes the encoding [pre] of a code point [c] and goes on with
    the bytes that follow. *)
Lemma utf8_decode_cons (b0 : byte) (t0 : list byte) :
  Py.utf8_decode (b0 :: t0) = Raise UnicodeDecodeError
  \/ exists (c : Z) (pre rest : list byte),
      b0 :: t0 = pre ++ rest
      /\ Py.utf8_encode_char c = Ok pre
      /\ (length rest < length (b0 :: t0))%nat
      /\ Py.utf8_decode (b0 :: t0)
         = (r <- Py.utf8_decode rest ;; Ok (c :: r)).
Proof.
  pose proof (byte_val_range b0) as R0.
  remember (Py.utf8_decode (b0 :: t0)) as d eqn:H.
  cbn [Py.utf8_decode] in H. unfold Py.between, Py.is_cont in H.
  destruct t0 as [| b1 [| b2 [| b3 t3]]]; cbv beta iota zeta in H.
  all: try pose proof (byte_val_range b1) as R1.
  all: try pose proof (byte_val_range b2) as R2.
  all: try pose proof (byte_val_range b3) as R3.
  all: split_cmp H; subst d.
  all: try (left; reflexivity).
  all: right; eexists;
    first [ exists [b0]; decode_step_rest
          | exists [b0; b1]; decode_step_rest
          | exists [b0; b1; b2]; decode_step_rest
          | exists [b0; b1; b2; b3]; decode_step_rest ].
  all: unfold Py.utf8_encode_char, Py.between.
  all: split_cmp_goal.
  all: repeat f_equal; same_byte.
Qed.

Lemma utf8_encode_app (s1 s2 : list Z) :
  Py.utf8_encode (s1 ++ s2)
  = (b1 <- Py.utf8_encode s1 ;; b2 <- Py.utf8_encode s2 ;; Ok (b1 ++ b2)).
Proof.
  induction s1 as [| c s1 IH]; cbn [app Py.utf8_encode].
  - cbn [bind]. destruct (Py.utf8_encode s2); reflexivity.
  - destruct (Py.utf8_encode_char c) as [b |]; [| reflexivity].
    cbn [bind]. rewrite IH.
    destruct (Py.utf8_encode s1) as [x |]; [| reflexivity].
    cbn [bind].
    destruct (Py.utf8_encode s2) as [y |]; [| reflexivity].
    cbn [bind]. rewrite app_assoc. reflexivity.
Qed.

Lemma utf8_decode_facts (n : nat) :
  forall bs : list byte,
    (length bs <= n)%nat ->
    (forall e, Py.utf8_decode bs = Raise e -> e = UnicodeDecodeError)
    /\ (forall s,
          Py.utf8_decode bs = Ok s ->
          Py.utf8_encode s = Ok bs
          /\ (length s <= length bs)%nat
          /\ (bs <> [] -> s <> [])).
Proof.
  induction n as [| n IH]; intros bs Hlen.
  - destruct bs; [| cbn [length] in Hlen; lia].
    split; [discriminate |].
    intros s H. injection H as <-.
    repeat split; [reflexivity | congruence].
  - destruct bs as [| b0 t0].
    { split; [discriminate |].
      intros s H. injection H as <-.
      repeat split; [reflexivity | congruence]. }
    destruct (utf8_decode_cons b0 t0)
      as [E | (c & pre & rest & Hsplit & Henc & Hshort & E)].
    + rewrite E. split; [intros e H; congruence | discriminate].
    + rewrite E.
      destruct (IH rest) as [IHe IHs]; [cbn [length] in *; lia |].
      destruct (Py.utf8_decode rest) as [r | e0]; cbn [bind].
      * split; [discriminate |].
        intros s H. injection H as <-.
        destruct (IHs r eq_refl) as (Hr & Hl & _).
        repeat split.
        -- change (c :: r) with ([c] ++ r). rewrite utf8_encode_app.
           cbn [Py.utf8_encode]. rewrite Henc, Hr. cbn [bind].
           rewrite app_nil_r, Hsplit. reflexivity.
        -- cbn [length] in *. lia.
        -- discriminate.
      * split; [| discriminate].
        intros e H. injection H as <-. exact (IHe e0 eq_refl).
Qed.

Lemma Ok_inj {A : Type} (a b : A) : Ok a = Ok b -> a = b.
Proof.
  intros H. injection H as ->. reflexivity.
Qed.

Ltac euclid := Z.to_euclidean_division_equations; lia.

Ltac bool_true :=
  unfold Py.between, Py.is_cont;
  repeat match goal with
         | |- context [?a =? ?b] => destruct (Z.eqb_spec a b)
         end;
  repeat (apply andb_true_intro; split);
  first [ apply Z.ltb_lt | apply Z.leb_le ]; euclid.

Ltac settle_if :=
  match goal with
  | |- (if ?cond then _ else _) = _ =>
      first [ replace cond with true by (symmetry; bool_true)
            | replace cond with false by (symmetry; apply Z.ltb_ge; euclid) ];
      cbv beta iota
  end.

(** Decoding the encoding of a code point gives the code point back
    and leaves the bytes that follow. *)
Lemma utf8_decode_encoded_char (c : Z) (pre rest : list byte) :
  Py.utf8_encode_char c = Ok pre ->
  Py.utf8_decode (pre ++ rest)
  = (r <- Py.utf8_decode rest ;; Ok (c :: r)).
Proof.
  intros H. unfold Py.utf8_encode_char, Py.between in H.
  split_cmp H; try discriminate H; try (exfalso; lia).
  all: apply Ok_inj in H; subst pre; cbn [app].
  all: match goal with
       | |- Py.utf8_decode (?b :: ?t) = _ =>
           let t' := fresh "t" in
           remember t as t' eqn:Et; cbn [Py.utf8_decode]; subst t';
           cbv beta iota zeta
       end.
  all: rewrite !byte_val_mk by euclid.
  all: repeat settle_if.
  all: destruct (Py.utf8_decode rest) as [r | e]; cbn [bind];
    [do 2 f_equal; euclid | reflexivity].
Qed.

(** What [encode] produces, [decode] reads back. *)
Lemma utf8_encode_decode (s : list Z) :
  forall bs : list byte,
    Py.utf8_encode s = Ok bs -> Py.utf8_decode bs = Ok s.
Proof.
  induction s as [| c s IH]; intros bs H.
  - injection H as <-. reflexivity.
  - cbn [Py.utf8_encode] in H.
    destruct (Py.utf8_encode_char c) as [pre |] eqn:Ec; [| discriminate H].
    cbn [bind] in H.
    destruct (Py.utf8_encode s) as [rest |]; [| discriminate H].
    cbn [bind] in H. injection H as <-.
    rewrite (utf8_decode_encoded_char c pre rest Ec), (IH rest eq_refl).
    reflexivity.
Qed.

Lemma utf8_decode_encode (bs : list byte) (s : list Z) :
  Py.utf8_decode bs = Ok s -> Py.utf8_encode s = Ok bs.
Proof.
  intros H.
  destruct (utf8_decode_facts (length bs) bs (Nat.le_refl _)) as [_ F].
  exact (proj1 (F s H)).
Qed.

Lemma utf8_decode_length (bs : list byte) (s : list Z) :
  Py.utf8_decode bs = Ok s ->
  (length s <= length bs)%nat /\ (bs <> [] -> s <> []).
Proof.
  intros H.
  destruct (utf8_decode_facts (length bs) bs (Nat.le_refl _)) as [_ F].
  exact (proj2 (F s H)).
Qed.

Lemma utf8_decode_raises (bs : list byte) (e : exn) :
  Py.utf8_decode bs = Raise e -> e = UnicodeDecodeError.
Proof.
  destruct (utf8_decode_facts (length bs) bs (Nat.le_refl _)) as [F _].
  apply F.
Qed.

Lemma getitem_raises {A : Type} (l : list A) (i : Z) (e : exn) :
  Py.getitem l i = Raise e -> e = IndexError.
Proof.
  unfold Py.getitem.
  destruct (_ || _); [intros H; injection H as <-; reflexivity |].
  destruct (nth_error l _); [discriminate |].
  intros H. injection H as <-. reflexivity.
Qed.

Lemma frombuffer_raises (buf : list byte) (itemsize : nat) (e : exn) :
  Np.frombuffer buf itemsize = Raise e -> e = ValueError.
Proof.
  unfold Np.frombuffer.
  destruct (_ =? _)%nat; [discriminate |].
  intros H. injection H as <-. reflexivity.
Qed.

Lemma get_string_outcome (key_store : list Py.bytes) (str_store : Py.bytes)
      (key : Z) :
  (forall e,
      AllotropeDF._get_string key_store str_store key = Raise e ->
      decode_error e)
  /\ (forall s,
        AllotropeDF._get_string key_store str_store key = Ok s ->
        exists bs, Py.utf8_decode bs = Ok s).
Proof.
  unfold AllotropeDF._get_string, Np.row, decode_error.
  destruct (Py.getitem key_store key) as [value | e0] eqn:E0; cbn [bind].
  2: { split; [| discriminate]. intros e H. injection H as <-.
       left. exact (getitem_raises _ _ _ E0). }
  destruct (Py.getitem value (-1)) as [n | e1] eqn:E1; cbn [bind].
  2: { split; [| discriminate]. intros e H. injection H as <-.
       left. exact (getitem_raises _ _ _ E1). }
  destruct (byte_val n >? 0).
  { split.
    - intros e H. right. right. exact (utf8_decode_raises _ _ H).
    - intros s H. eexists. exact H. }
  destruct (Np.frombuffer _ 8) as [starts | e2] eqn:E2; cbn [bind].
  2: { split; [| discriminate]. intros e H. injection H as <-.
       right. left. exact (frombuffer_raises _ _ _ E2). }
  destruct (Py.getitem starts 0) as [start | e3] eqn:E3; cbn [bind].
  2: { split; [| discriminate]. intros e H. injection H as <-.
       left. exact (getitem_raises _ _ _ E3). }
  destruct (Np.frombuffer _ 4) as [counts | e4] eqn:E4; cbn [bind].
  2: { split; [| discriminate]. intros e H. injection H as <-.
       right. left. exact (frombuffer_raises _ _ _ E4). }
  destruct (Py.getitem counts 0) as [count | e5] eqn:E5; cbn [bind].
  2: { split; [| discriminate]. intros e H. injection H as <-.
       left. exact (getitem_raises _ _ _ E5). }
  split.
  - intros e H. right. right. exact (utf8_decode_raises _ _ H).
  - intros s H. eexists. exact H.
Qed.

Lemma resolved_string_round_trip_bytes
      (key_store : list Py.bytes) (str_store : Py.bytes)
      (key : Z) (s : Py.str) :
  AllotropeDF._get_string key_store str_store key = Ok s ->
  exists bs : Py.bytes,
    Py.utf8_decode bs = Ok s /\ Py.utf8_encode s = Ok bs.
Proof.
  intros H.
  destruct (get_string_outcome key_store str_store key) as [_ F].
  destruct (F s H) as [bs Hbs].
  exists bs. split; [exact Hbs | exact (utf8_decode_encode _ _ Hbs)].
Qed.

(** X4. What the dictionary resolves to can be written back: a string
    returned by [_get_string] is the UTF-8 decoding of some bytes of
    the dictionary, encoding it gives exactly those bytes again, and it
    has no more characters than they are bytes. *)
Theorem resolved_string_round_trip
        (key_store : list Py.bytes) (str_store : Py.bytes)
        (key : Z) (s : Py.str) :
  AllotropeDF._get_string key_store str_store key = Ok s ->
  exists bs : Py.bytes,
    Py.utf8_decode bs = Ok s
    /\ Py.utf8_encode s = Ok bs
    /\ (length s <= length bs)%nat.
Proof.
  intros H.
  destruct (get_string_outcome key_store str_store key) as [_ F].
  destruct (F s H) as [bs Hbs].
  exists bs. split; [exact Hbs |]. split.
  - exact (utf8_decode_encode _ _ Hbs).
  - exact (proj1 (utf8_decode_length _ _ Hbs)).
Qed.

Lemma resolved_string_round_trip_witness :
  exists bs : Py.bytes,
    Py.utf8_decode bs = Ok (Py.lit "barx")
    /\ Py.utf8_encode (Py.lit "barx") = Ok bs
    /\ (length (Py.lit "barx") <= length bs)%nat.
Proof.
  apply (resolved_string_round_trip sample_keys sample_bytes 5).
  reflexivity.
Defined.

(** X5. A direct-mode length byte that is not below the row width:
    the slice [value[:n]] stops at the end of the row, so the string is
    the decoding of the whole row, the length byte itself included. *)
Theorem direct_mode_clamps_to_row
        (key_store : list Py.bytes) (str_store : Py.bytes)
        (key : Z) (body : Py.bytes) (n : byte) :
  0 <= key ->
  nth_error key_store (Z.to_nat key) = Some (body ++ [n]) ->
  Z.of_nat (length (body ++ [n])) <= byte_val n ->
  AllotropeDF._get_string key_store str_store key
  = Py.utf8_decode (body ++ [n]).
Proof.
  intros Hkey Hrow Hn.
  rewrite (get_string_direct _ str_store _ _ _ Hkey Hrow)
    by (rewrite length_app in Hn; cbn [length] in Hn; lia).
  rewrite firstn_all2 by lia. reflexivity.
Qed.

Lemma direct_mode_clamps_to_row_witness :
  AllotropeDF._get_string [[x61; x62; x20]] [] 0
  = Ok (Py.lit "ab ").
Proof.
  rewrite (direct_mode_clamps_to_row [[x61; x62; x20]] [] 0 [x61; x62] x20);
    by_evaluation.
Defined.

(** X6. A direct-mode key never resolves to the empty string: with a
    last byte [n > 0], a string that [_get_string] returns is not
    empty, has at most [n] characters and encodes to the first [n]
    bytes of the row.  So the blank-node rule on a direct-mode value
    key cannot fail at [val[0]]: it returns a node or raises
    [UnicodeDecodeError]. *)
Theorem direct_mode_never_empty
        (key_store : list Py.bytes) (str_store : Py.bytes)
        (key : Z) (body : Py.bytes) (n : byte) :
  0 <= key ->
  nth_error key_store (Z.to_nat key) = Some (body ++ [n]) ->
  0 < byte_val n ->
  (forall s : Py.str,
      AllotropeDF._get_string key_store str_store key = Ok s ->
      s <> []
      /\ Z.of_nat (length s) <= byte_val n
      /\ Py.utf8_encode s
         = Ok (firstn (Z.to_nat (byte_val n)) (body ++ [n])))
  /\ (forall res_key : Z,
         (exists node : Py.str,
             AllotropeDF._blank_node key_store str_store res_key key
             = Ok node)
         \/ AllotropeDF._blank_node key_store str_store res_key key
            = Raise UnicodeDecodeError).
Proof.
  intros Hkey Hrow Hn.
  pose proof (get_string_direct _ str_store _ _ _ Hkey Hrow Hn) as E.
  assert (F : forall s,
             AllotropeDF._get_string key_store str_store key = Ok s ->
             s <> []
             /\ Z.of_nat (length s) <= byte_val n
             /\ Py.utf8_encode s
                = Ok (firstn (Z.to_nat (byte_val n)) (body ++ [n]))).
  { intros s H. rewrite E in H.
    destruct (utf8_decode_length _ _ H) as [Hlen Hne].
    repeat split.
    - apply Hne. intros Hnil.
      apply (f_equal (@length byte)) in Hnil.
      rewrite length_firstn, length_app in Hnil. cbn [length] in Hnil. lia.
    - rewrite length_firstn in Hlen. lia.
    - exact (utf8_decode_encode _ _ H). }
  split; [exact F |].
  intros res_key. unfold AllotropeDF._blank_node.
  destruct (AllotropeDF._get_string key_store str_store key)
    as [s | e] eqn:Es; cbn [bind].
  - destruct (F s eq_refl) as (Hne & _).
    destruct s as [| c rest]; [congruence |].
    rewrite getitem_head. cbn [bind]. left. eexists. reflexivity.
  - right. symmetry in E.
    rewrite (utf8_decode_raises _ _ E). reflexivity.
Qed.

Lemma direct_mode_never_empty_witness :
  Py.utf8_encode (Py.lit "-b1") = Ok (list_byte_of_string "-b1")
  /\ ((exists node : Py.str,
          AllotropeDF._blank_node sample_keys sample_bytes 3 8 = Ok node)
      \/ AllotropeDF._blank_node sample_keys sample_bytes 3 8
         = Raise UnicodeDecodeError).
Proof.
  destruct (direct_mode_never_empty sample_keys sample_bytes 8
              (firstn 12 (direct_row 13 "-b1")) x03) as [F B];
    [by_evaluation .. |].
  split.
  - destruct (F (Py.lit "-b1")) as (_ & _ & Henc); [reflexivity |].
    rewrite Henc. reflexivity.
  - exact (B 3).
Defined.

(** ** More on the node rules *)

(** X7. An IRI node is the plain concatenation of its two dictionary
    strings: a word of kind 1 whose value key resolves to [val] and
    whose resource key resolves to [res] renders as [<res val>] with
    nothing in between, and the bytes written for it are [<], the
    dictionary bytes of [res], those of [val], and [>]. *)
Theorem resource_node_concatenates
        (key_store : list Py.bytes) (str_store : Py.bytes)
        (res_key val_key : Z) (res val : Py.str) :
  0 <= res_key < 2 ^ 31 -> 0 <= val_key < 2 ^ 31 ->
  AllotropeDF._get_string key_store str_store val_key = Ok val ->
  AllotropeDF._get_string key_store str_store res_key = Ok res ->
  render_word key_store str_store (pack_node 1 res_key val_key)
  = Ok (Py.lit "<" ++ res ++ val ++ Py.lit ">")
  /\ exists bres bval : Py.bytes,
      Py.utf8_decode bres = Ok res
      /\ Py.utf8_decode bval = Ok val
      /\ Py.utf8_encode (Py.lit "<" ++ res ++ val ++ Py.lit ">")
         = Ok ([x3c] ++ bres ++ bval ++ [x3e]).
Proof.
  intros Hres Hval Hv Hr. split.
  - destruct (packed_fields 1 res_key val_key) as (Ev & Er & Ek); try lia.
    cbv zeta in Ev, Er, Ek.
    unfold render_word. rewrite Ev, Er, Ek.
    destruct (template_dispatch key_store str_store) as (_ & E1 & _).
    cbv zeta in E1. rewrite E1. cbn [bind].
    unfold AllotropeDF._resource_node. rewrite Hv, Hr. reflexivity.
  - destruct (resolved_string_round_trip_bytes _ _ _ _ Hr)
      as (bres & Dres & Eres).
    destruct (resolved_string_round_trip_bytes _ _ _ _ Hv)
      as (bval & Dval & Eval).
    exists bres, bval. split; [exact Dres |]. split; [exact Dval |].
    rewrite !utf8_encode_app, Eres, Eval. reflexivity.
Qed.

Lemma resource_node_concatenates_witness :
  render_word sample_keys sample_bytes (pack_node 1 1 2)
  = Ok (Py.lit "<" ++ Py.lit "http://ex/" ++ Py.lit "s" ++ Py.lit ">").
Proof.
  apply (resource_node_concatenates sample_keys sample_bytes 1 2);
    by_evaluation.
Defined.

(** Splits on which of the seven characters [c] is, if any. *)
Ltac escape_cases c :=
  unfold escape_char;
  destruct (Z.eqb_spec c 34) as [-> | ?];
  [| destruct (Z.eqb_spec c 39) as [-> | ?];
     [| destruct (Z.eqb_spec c 9) as [-> | ?];
        [| destruct (Z.eqb_spec c 10) as [-> | ?];
           [| destruct (Z.eqb_spec c 13) as [-> | ?];
              [| destruct (Z.eqb_spec c 8) as [-> | ?];
                 [| destruct (Z.eqb_spec c 12) as [-> | ?]]]]]]].

Lemma escape_cons (c : Z) (val : Py.str) :
  AllotropeDF.escape (c :: val) = escape_char c ++ AllotropeDF.escape val.
Proof.
  rewrite !escape_by_char. reflexivity.
Qed.

(** X8. An escaped literal value holds none of the five control
    characters the rule rewrites (tab, line feed, carriage return,
    backspace, form feed), and each double or single quote in it comes
    right after a backslash. *)
Theorem escaped_value_is_clean (val : Py.str) :
  Forall (fun c => c <> 9 /\ c <> 10 /\ c <> 13 /\ c <> 8 /\ c <> 12)
         (AllotropeDF.escape val)
  /\ (forall (pre post : Py.str) (c : Z),
         AllotropeDF.escape val = pre ++ c :: post ->
         c = 34 \/ c = 39 ->
         exists pre', pre = pre' ++ [92]).
Proof.
  split.
  - induction val as [| c val IH].
    + constructor.
    + rewrite escape_cons. apply Forall_app. split; [| exact IH].
      escape_cases c; repeat constructor; lia.
  - induction val as [| a val IH]; intros pre post c H Hq.
    + destruct pre; discriminate H.
    + rewrite escape_cons in H.
      assert (Hhead :
                (escape_char a = [a] /\ a <> 34 /\ a <> 39)
                \/ exists q, escape_char a = [92; q]).
      { escape_cases a;
          first [ right; eexists; reflexivity
                | left; repeat split; assumption ]. }
      destruct Hhead as [(Ea & N1 & N2) | (q & Ea)]; rewrite Ea in H.
      * destruct pre as [| p pre].
        -- cbn [app] in H. injection H as -> _. lia.
        -- cbn [app] in H. injection H as <- H.
           destruct (IH pre post c H Hq) as [pre' ->].
           exists (a :: pre'). reflexivity.
      * destruct pre as [| p0 [| p1 pre]].
        -- cbn [app] in H. injection H as <- _. lia.
        -- exists []. cbn [app] in H. injection H as <- _ _. reflexivity.
        -- cbn [app] in H. injection H as <- <- H.
           destruct (IH pre post c H Hq) as [pre' ->].
           exists (92 :: q :: pre'). reflexivity.
Qed.

(** X9. Escaping loses nothing on values without a backslash: two such
    values with the same escaped form are equal.  With backslashes it
    does: a line feed and the two characters backslash, [n] escape to
    the same text. *)
Theorem escape_injective_without_backslash :
  (forall v1 v2 : Py.str,
      Forall (fun c => c <> 92) v1 ->
      Forall (fun c => c <> 92) v2 ->
      AllotropeDF.escape v1 = AllotropeDF.escape v2 ->
      v1 = v2)
  /\ AllotropeDF.escape [10] = AllotropeDF.escape [92; 110].
Proof.
  split; [| reflexivity].
  induction v1 as [| c1 v1 IH]; intros v2 H1 H2 H.
  - destruct v2 as [| c2 v2]; [reflexivity |].
    rewrite escape_cons in H. exfalso. revert H.
    escape_cases c2; discriminate.
  - destruct v2 as [| c2 v2].
    + rewrite escape_cons in H. exfalso. revert H.
      escape_cases c1; discriminate.
    + rewrite !escape_cons in H.
      inversion H1 as [| ? ? N1 F1]; subst.
      inversion H2 as [| ? ? N2 F2]; subst.
      specialize (IH v2 F1 F2).
      revert H.
      escape_cases c1; escape_cases c2; cbn [app]; intros H;
        injection H; intros; subst;
        first [ lia | f_equal; auto ].
Qed.

Lemma escape_injective_without_backslash_witness :
  Py.lit "a'b" = [97; 39; 98].
Proof.
  destruct escape_injective_without_backslash as [Hinj _].
  apply Hinj.
  - repeat constructor; discriminate.
  - repeat constructor; discriminate.
  - reflexivity.
Defined.

(** ** What can be written *)

Lemma encodable_app (s1 s2 : Py.str) :
  encodable (s1 ++ s2) <-> encodable s1 /\ encodable s2.
Proof.
  unfold encodable. rewrite utf8_encode_app. split.
  - intros [b H].
    destruct (Py.utf8_encode s1) as [b1 |]; [| discriminate H].
    destruct (Py.utf8_encode s2) as [b2 |]; [| discriminate H].
    split; eexists; reflexivity.
  - intros [[b1 H1] [b2 H2]]. rewrite H1, H2. eexists. reflexivity.
Qed.

Lemma encodable_nil : encodable [].
Proof.
  exists []. reflexivity.
Qed.

Lemma encodable_cons (c : Z) (s : Py.str) :
  encodable (c :: s) <-> encodable [c] /\ encodable s.
Proof.
  apply (encodable_app [c] s).
Qed.

Lemma encodable_escape (val : Py.str) :
  encodable val -> encodable (AllotropeDF.escape val).
Proof.
  induction val as [| c val IH]; intros H.
  - exact encodable_nil.
  - apply encodable_cons in H. destruct H as [Hc Hv].
    rewrite escape_cons. apply encodable_app. split; [| exact (IH Hv)].
    escape_cases c; first [exact Hc | eexists; reflexivity].
Qed.

Lemma encodable_join (sep : Py.str) (l : list Py.str) :
  encodable sep -> Forall encodable l -> encodable (Py.join sep l).
Proof.
  intros Hsep Hl.
  induction Hl as [| x l Hx Hl IH]; [exact encodable_nil |].
  cbn [Py.join]. destruct l as [| y l]; [exact Hx |].
  apply encodable_app. split; [exact Hx |].
  apply encodable_app. split; [exact Hsep | exact IH].
Qed.

Lemma get_string_encodable (key_store : list Py.bytes)
      (str_store : Py.bytes) (key : Z) (s : Py.str) :
  AllotropeDF._get_string key_store str_store key = Ok s -> encodable s.
Proof.
  intros H.
  destruct (resolved_string_round_trip_bytes _ _ _ _ H) as (b & _ & E).
  exists b. exact E.
Qed.

(** Closes the failing branch of a [bind] in the goal's hypothesis [H]
    and names the value of the other. *)
Ltac bind_ok H x E :=
  match type of H with
  | bind ?m _ = _ =>
      destruct m as [x |] eqn:E; cbn [bind] in H; [| discriminate H]
  end.

Section Nodes.

Variable key_store : list Py.bytes.
Variable str_store : Py.bytes.

Lemma blank_node_encodable (res_key val_key : Z) (s : Py.str) :
  AllotropeDF._blank_node key_store str_store res_key val_key = Ok s ->
  encodable s.
Proof.
  unfold AllotropeDF._blank_node. intros H.
  bind_ok H val Ev. bind_ok H c Ec.
  apply Ok_inj in H. subst s.
  pose proof (get_string_encodable _ _ _ _ Ev) as Hval.
  apply encodable_app. split; [eexists; reflexivity |].
  destruct (c =? 45); [| exact Hval].
  destruct val as [| c0 rest]; [rewrite getitem_nil in Ec; discriminate Ec |].
  rewrite slice_tail. apply encodable_cons in Hval. exact (proj2 Hval).
Qed.

Lemma resource_node_encodable (res_key val_key : Z) (s : Py.str) :
  AllotropeDF._resource_node key_store str_store res_key val_key = Ok s ->
  encodable s.
Proof.
  unfold AllotropeDF._resource_node. intros H.
  bind_ok H val Ev. bind_ok H res Er.
  apply Ok_inj in H. subst s.
  pose proof (get_string_encodable _ _ _ _ Ev) as Hval.
  pose proof (get_string_encodable _ _ _ _ Er) as Hres.
  repeat (apply encodable_app; split);
    first [assumption | eexists; reflexivity].
Qed.

Lemma literal_node_encodable (res_key val_key : Z) (s : Py.str) :
  AllotropeDF._literal_node key_store str_store res_key val_key = Ok s ->
  encodable s.
Proof.
  unfold AllotropeDF._literal_node. intros H.
  bind_ok H val Ev.
  pose proof (encodable_escape _ (get_string_encodable _ _ _ _ Ev)) as Hval.
  destruct (res_key =? 0).
  - apply Ok_inj in H. subst s.
    repeat (apply encodable_app; split);
      first [assumption | eexists; reflexivity].
  - bind_ok H res Er. apply Ok_inj in H. subst s.
    pose proof (get_string_encodable _ _ _ _ Er) as Hres.
    repeat (apply encodable_app; split);
      first [assumption | eexists; reflexivity].
Qed.

Lemma render_word_encodable (w : Z) (s : Py.str) :
  render_word key_store str_store w = Ok s -> encodable s.
Proof.
  rewrite render_word_fields. intros H.
  destruct (word_fields_range w) as (Hk & _ & _).
  assert (Hcases : word_kind w = 0 \/ word_kind w = 1
                   \/ word_kind w = 2 \/ word_kind w = 3) by lia.
  destruct (template_dispatch key_store str_store) as (T0 & T1 & T2 & T3).
  cbv zeta in T0, T1, T2, T3.
  destruct Hcases as [E | [E | [E | E]]]; rewrite E in H.
  - rewrite T0 in H. cbn [bind] in H.
    exact (blank_node_encodable _ _ _ H).
  - rewrite T1 in H. cbn [bind] in H.
    exact (resource_node_encodable _ _ _ H).
  - rewrite T2 in H. cbn [bind] in H.
    exact (literal_node_encodable _ _ _ H).
  - rewrite T3 in H. discriminate H.
Qed.

Lemma mapM_render_encodable (quad : list Z) :
  forall content : list Py.str,
    mapM (render_word key_store str_store) quad = Ok content ->
    Forall encodable content.
Proof.
  induction quad as [| w quad IH]; intros content H.
  - apply Ok_inj in H. subst content. constructor.
  - cbn [mapM] in H. bind_ok H node En. bind_ok H r Er.
    apply Ok_inj in H. subst content.
    constructor; [exact (render_word_encodable _ _ En) | exact (IH _ eq_refl)].
Qed.

Lemma row_line_encodable (quad : list Z) (line : Py.str) :
  row_line key_store str_store quad = Ok line -> encodable line.
Proof.
  unfold row_line, AllotropeDF.quad_line. intros H.
  bind_ok H content Ec. bind_ok H node0 Ef.
  apply Ok_inj in H. subst line.
  pose proof (mapM_render_encodable _ _ Ec) as Hall.
  destruct content as [| c0 rest];
    [rewrite getitem_nil in Ef; discriminate Ef |].
  rewrite getitem_head in Ef. apply Ok_inj in Ef. subst node0.
  rewrite slice_tail.
  inversion Hall as [| ? ? H0 Hrest]; subst.
  repeat (apply encodable_app; split);
    first [ assumption
          | apply encodable_join; [eexists; reflexivity | assumption]
          | eexists; reflexivity ].
Qed.

End Nodes.

(** On this platform the newline translation of [write] is the
    identity. *)
Lemma newline_translation_id (s : Py.str) :
  Py.replace s [10] Py.linesep = s.
Proof.
  unfold Py.linesep. rewrite replace_single.
  induction s as [| c s IH]; [reflexivity |].
  cbn [flat_map]. rewrite IH.
  destruct (Z.eqb_spec c 10) as [-> | _]; reflexivity.
Qed.

(** A write fails only in the encoder; otherwise the encoded text is
    added to what the flushed buffer will hold, and what the [BytesIO]
    already holds stays in front. *)
Lemma write_outcome (store : Py.TextIOWrapper) (s : Py.str) :
  match Py.utf8_encode s with
  | Ok b =>
      exists store' : Py.TextIOWrapper,
        Py.write store s = Ok store'
        /\ Py.getvalue (Py.flush store')
           = Py.getvalue (Py.flush store) ++ b
        /\ exists more, Py.raw store' = Py.raw store ++ more
  | Raise e => Py.write store s = Raise e
  end.
Proof.
  unfold Py.write. rewrite newline_translation_id.
  destruct (Py.utf8_encode s) as [b | e]; cbn [bind]; [| reflexivity].
  eexists. split; [reflexivity |].
  unfold Py.getvalue, Py.flush.
  destruct (_ >? _); cbn [Py.raw Py.pending app];
    destruct (_ >=? _); cbn [Py.raw Py.pending app];
    rewrite ?app_nil_r, <- ?app_assoc; split; try reflexivity.
  - exists (Py.pending store ++ b). reflexivity.
  - exists (Py.pending store). reflexivity.
  - exists (Py.pending store ++ b). reflexivity.
  - exists []. rewrite app_nil_r. reflexivity.
Qed.

(** ** What the decoder writes *)

Lemma emit_row_line (key_store : list Py.bytes) (str_store : Py.bytes)
      (quad : list Z) (store : Py.TextIOWrapper) :
  emit_row key_store str_store quad store
  = (line <- row_line key_store str_store quad ;; Py.write store line).
Proof.
  unfold emit_row, row_line. rewrite bind_assoc. reflexivity.
Qed.

Lemma rows_text_encodable (key_store : list Py.bytes)
      (str_store : Py.bytes) (rows : list (list Z)) :
  forall text : Py.str,
    rows_text key_store str_store rows = Ok text -> encodable text.
Proof.
  induction rows as [| quad rows IH]; intros text H.
  - apply Ok_inj in H. subst text. exact encodable_nil.
  - cbn [rows_text] in H. bind_ok H line El. bind_ok H rest Er.
    apply Ok_inj in H. subst text.
    apply encodable_app. split.
    + exact (row_line_encodable _ _ _ _ El).
    + exact (IH _ eq_refl).
Qed.

(** Writing rows adds the encoding of their text to what the flushed
    buffer will hold; the only failures are those of rendering. *)
Lemma emit_rows_outcome (key_store : list Py.bytes) (str_store : Py.bytes)
      (rows : list (list Z)) :
  forall store : Py.TextIOWrapper,
    match rows_text key_store str_store rows with
    | Ok text =>
        exists (b : Py.bytes) (store' : Py.TextIOWrapper),
          Py.utf8_encode text = Ok b
          /\ emit_rows key_store str_store rows store = Ok store'
          /\ Py.getvalue (Py.flush store')
             = Py.getvalue (Py.flush store) ++ b
          /\ exists more, Py.raw store' = Py.raw store ++ more
    | Raise e => emit_rows key_store str_store rows store = Raise e
    end.
Proof.
  induction rows as [| quad rows IH]; intros store.
  - cbn [emit_rows rows_text]. exists [], store.
    repeat split; [rewrite app_nil_r; reflexivity |].
    exists []. rewrite app_nil_r. reflexivity.
  - cbn [emit_rows rows_text]. rewrite emit_row_line.
    destruct (row_line key_store str_store quad) as [line | e] eqn:El;
      cbn [bind]; [| reflexivity].
    destruct (row_line_encodable _ _ _ _ El) as [bl Hl].
    pose proof (write_outcome store line) as Hw. rewrite Hl in Hw.
    destruct Hw as (store1 & Hw & Hv1 & more1 & Hr1).
    rewrite Hw. cbn [bind].
    specialize (IH store1).
    destruct (rows_text key_store str_store rows) as [text | e];
      cbn [bind]; [| exact IH].
    destruct IH as (bt & store' & Hbt & Hrun & Hv & more & Hr).
    exists (bl ++ bt), store'.
    split; [rewrite utf8_encode_app, Hl, Hbt; reflexivity |].
    split; [exact Hrun |].
    split; [rewrite Hv, Hv1, app_assoc; reflexivity |].
    exists (more1 ++ more). rewrite Hr, Hr1, app_assoc. reflexivity.
Qed.

Lemma get_quads_outcome (h5f : H5File) (valid : list (list Z))
      (store : Py.TextIOWrapper) :
  AllotropeDF.select_valid (h5_quads h5f) = Ok valid ->
  let key_store := h5_dictionary_keys h5f in
  let str_store := h5_dictionary_bytes h5f in
  let limit :=
    Nat.min (length (h5_quads h5f)) (Z.to_nat (h5_quads_size h5f)) in
  if (limit <=? length valid)%nat
  then
    match rows_text key_store str_store (firstn limit valid) with
    | Ok text =>
        exists (b : Py.bytes) (store' : Py.TextIOWrapper),
          Py.utf8_encode text = Ok b
          /\ AllotropeDF._get_quads h5f store = Ok store'
          /\ Py.getvalue (Py.flush store')
             = Py.getvalue (Py.flush store) ++ b
          /\ exists more, Py.raw store' = Py.raw store ++ more
    | Raise e => AllotropeDF._get_quads h5f store = Raise e
    end
  else
    match rows_text key_store str_store valid with
    | Ok _ => AllotropeDF._get_quads h5f store = Raise IndexError
    | Raise e => AllotropeDF._get_quads h5f store = Raise e
    end.
Proof.
  intros Hv. cbv zeta. rewrite (get_quads_rows _ _ _ Hv). cbv zeta.
  destruct (_ <=? _)%nat.
  - apply emit_rows_outcome.
  - pose proof (emit_rows_outcome (h5_dictionary_keys h5f)
                  (h5_dictionary_bytes h5f) valid store) as Ho.
    destruct (rows_text _ _ valid) as [text | e].
    + destruct Ho as (b & store' & _ & Hrun & _). rewrite Hrun. reflexivity.
    + rewrite Ho. reflexivity.
Qed.

(** X10. The decoder only appends, and what it appends does not depend
    on what the store already holds.  When a run on a fresh store
    returns, a run on any store returns too; after a flush its buffer
    holds what the store's buffer would have held, followed by the
    output of the fresh run, and the bytes already in the [BytesIO]
    stay in front.  When the run on a fresh store raises, the run on
    any store raises the same exception. *)
Theorem get_quads_appends (h5f : H5File) (store : Py.TextIOWrapper) :
  match AllotropeDF._get_quads h5f Py.new_TextIOWrapper with
  | Ok fresh =>
      exists store' : Py.TextIOWrapper,
        AllotropeDF._get_quads h5f store = Ok store'
        /\ Py.getvalue (Py.flush store')
           = Py.getvalue (Py.flush store) ++ Py.getvalue (Py.flush fresh)
        /\ exists more, Py.raw store' = Py.raw store ++ more
  | Raise e => AllotropeDF._get_quads h5f store = Raise e
  end.
Proof.
  destruct (AllotropeDF.select_valid (h5_quads h5f)) as [valid | e] eqn:Hv.
  - pose proof (get_quads_outcome h5f valid store Hv) as Hs.
    pose proof (get_quads_outcome h5f valid Py.new_TextIOWrapper Hv) as Hf.
    cbv zeta in Hs, Hf.
    destruct (_ <=? _)%nat.
    + destruct (rows_text _ _ _) as [text | e0].
      * destruct Hf as (bf & fresh & Hbf & Hrunf & Hvf & _).
        destruct Hs as (bs & store' & Hbs & Hruns & Hvs & Hraw).
        rewrite Hrunf. exists store'.
        split; [exact Hruns |]. split; [| exact Hraw].
        rewrite Hvs, Hvf. cbn [Py.getvalue Py.flush Py.raw Py.pending
                               Py.new_TextIOWrapper app].
        congruence.
      * rewrite Hf. exact Hs.
    + destruct (rows_text _ _ valid) as [text | e0];
        rewrite Hf; exact Hs.
  - unfold AllotropeDF._get_quads. rewrite Hv. reflexivity.
Qed.

(** X11. The buffer is the UTF-8 encoding of the lines: after a run on
    a fresh store that returns, the bytes [dump_ld] finds in the buffer
    once it has flushed the store decode, as UTF-8, to the lines of the
    first [size] valid rows one after the other. *)
Theorem get_quads_buffer_decodes (h5f : H5File) (valid : list (list Z))
        (store : Py.TextIOWrapper) :
  AllotropeDF.select_valid (h5_quads h5f) = Ok valid ->
  AllotropeDF._get_quads h5f Py.new_TextIOWrapper = Ok store ->
  Py.utf8_decode (Py.getvalue (Py.flush store))
  = rows_text (h5_dictionary_keys h5f) (h5_dictionary_bytes h5f)
              (firstn (Z.to_nat (h5_quads_size h5f)) valid).
Proof.
  intros Hv H.
  pose proof (select_valid_length _ _ Hv) as Hlen.
  pose proof (get_quads_outcome h5f valid Py.new_TextIOWrapper Hv) as Ho.
  cbv zeta in Ho.
  destruct (Nat.leb_spec
              (Nat.min (length (h5_quads h5f))
                       (Z.to_nat (h5_quads_size h5f)))
              (length valid)) as [Hle | Hgt].
  - assert (Erows :
              firstn (Nat.min (length (h5_quads h5f))
                              (Z.to_nat (h5_quads_size h5f))) valid
              = firstn (Z.to_nat (h5_quads_size h5f)) valid).
    { destruct (Nat.le_gt_cases (Z.to_nat (h5_quads_size h5f))
                                (length (h5_quads h5f))).
      - rewrite Nat.min_r by lia. reflexivity.
      - rewrite Nat.min_l in * by lia.
        rewrite !firstn_all2 by lia. reflexivity. }
    rewrite Erows in Ho.
    destruct (rows_text _ _ _) as [text | e].
    + destruct Ho as (b & store' & Hb & Hrun & Hval & _).
      rewrite H in Hrun. apply Ok_inj in Hrun. subst store'.
      rewrite Hval. cbn [Py.getvalue Py.flush Py.raw Py.pending
                         Py.new_TextIOWrapper app].
      exact (utf8_encode_decode _ _ Hb).
    + rewrite H in Ho. discriminate Ho.
  - destruct (rows_text _ _ valid); rewrite H in Ho; discriminate Ho.
Qed.

Lemma get_quads_buffer_decodes_witness :
  Py.utf8_decode
    (list_byte_of_string "<http://ex/s> <http://ex/p> "
       ++ [x22] ++ list_byte_of_string "hello" ++ [x22]
       ++ list_byte_of_string " _:g1 ." ++ [x0a])
  = rows_text sample_keys sample_bytes [sample_quad].
Proof.
  exact (get_quads_buffer_decodes sample_file [sample_quad]
           (Py.mkTextIO []
              (list_byte_of_string "<http://ex/s> <http://ex/p> "
                 ++ [x22] ++ list_byte_of_string "hello" ++ [x22]
                 ++ list_byte_of_string " _:g1 ." ++ [x0a]))
           eq_refl eq_refl).
Defined.

(** ** What the decoder can raise *)

Lemma index_is_decode_error : decode_error IndexError.
Proof.
  left. reflexivity.
Qed.

Section Raises.

Variable key_store : list Py.bytes.
Variable str_store : Py.bytes.

Lemma node_rules_raise (res_key val_key : Z) (e : exn) :
  AllotropeDF._blank_node key_store str_store res_key val_key = Raise e
  \/ AllotropeDF._resource_node key_store str_store res_key val_key
     = Raise e
  \/ AllotropeDF._literal_node key_store str_store res_key val_key
     = Raise e ->
  decode_error e.
Proof.
  unfold AllotropeDF._blank_node, AllotropeDF._resource_node,
    AllotropeDF._literal_node.
  intros [H | [H | H]].
  - destruct (AllotropeDF._get_string key_store str_store val_key)
      as [val | e0] eqn:Ev; cbn [bind] in H.
    + destruct (Py.getitem val 0) as [c | e1] eqn:Ec; cbn [bind] in H;
        [discriminate H |].
      injection H as <-. left. exact (getitem_raises _ _ _ Ec).
    + injection H as <-. exact (proj1 (get_string_outcome key_store str_store _) _ Ev).
  - destruct (AllotropeDF._get_string key_store str_store val_key)
      as [val | e0] eqn:Ev; cbn [bind] in H.
    + destruct (AllotropeDF._get_string key_store str_store res_key)
        as [res | e1] eqn:Er; cbn [bind] in H; [discriminate H |].
      injection H as <-. exact (proj1 (get_string_outcome key_store str_store _) _ Er).
    + injection H as <-. exact (proj1 (get_string_outcome key_store str_store _) _ Ev).
  - destruct (AllotropeDF._get_string key_store str_store val_key)
      as [val | e0] eqn:Ev; cbn [bind] in H.
    + destruct (res_key =? 0); [discriminate H |].
      destruct (AllotropeDF._get_string key_store str_store res_key)
        as [res | e1] eqn:Er; cbn [bind] in H; [discriminate H |].
      injection H as <-. exact (proj1 (get_string_outcome key_store str_store _) _ Er).
    + injection H as <-. exact (proj1 (get_string_outcome key_store str_store _) _ Ev).
Qed.

Lemma render_word_raises (w : Z) (e : exn) :
  render_word key_store str_store w = Raise e -> decode_error e.
Proof.
  rewrite render_word_fields. intros H.
  destruct (word_fields_range w) as (Hk & _ & _).
  assert (Hcases : word_kind w = 0 \/ word_kind w = 1
                   \/ word_kind w = 2 \/ word_kind w = 3) by lia.
  destruct (template_dispatch key_store str_store) as (T0 & T1 & T2 & T3).
  cbv zeta in T0, T1, T2, T3.
  destruct Hcases as [E | [E | [E | E]]]; rewrite E in H.
  - rewrite T0 in H. cbn [bind] in H.
    apply (node_rules_raise (word_key w) (word_value_key w)). auto.
  - rewrite T1 in H. cbn [bind] in H.
    apply (node_rules_raise (word_key w) (word_value_key w)). auto.
  - rewrite T2 in H. cbn [bind] in H.
    apply (node_rules_raise (word_key w) (word_value_key w)). auto.
  - rewrite T3 in H. injection H as <-. exact index_is_decode_error.
Qed.

Lemma row_line_raises (quad : list Z) (e : exn) :
  row_line key_store str_store quad = Raise e -> decode_error e.
Proof.
  unfold row_line. intros H.
  destruct (mapM (render_word key_store str_store) quad)
    as [content | e0] eqn:Ec; cbn [bind] in H.
  - unfold AllotropeDF.quad_line in H.
    destruct (Py.getitem content 0) as [c | e1] eqn:E0; cbn [bind] in H;
      [discriminate H |].
    injection H as <-. left. exact (getitem_raises _ _ _ E0).
  - injection H as <-. clear - Ec. revert e0 Ec.
    induction quad as [| w quad IH]; intros e0 Ec; [discriminate Ec |].
    cbn [mapM] in Ec.
    destruct (render_word key_store str_store w) as [node | e1] eqn:En;
      cbn [bind] in Ec.
    + destruct (mapM (render_word key_store str_store) quad)
        as [r | e2]; cbn [bind] in Ec; [discriminate Ec |].
      injection Ec as <-. exact (IH _ eq_refl).
    + injection Ec as <-. exact (render_word_raises _ _ En).
Qed.

Lemma rows_text_raises (rows : list (list Z)) (e : exn) :
  rows_text key_store str_store rows = Raise e -> decode_error e.
Proof.
  induction rows as [| quad rows IH]; intros H; [discriminate H |].
  cbn [rows_text] in H.
  destruct (row_line key_store str_store quad) as [line | e0] eqn:El;
    cbn [bind] in H.
  - destruct (rows_text key_store str_store rows) as [text | e1];
      cbn [bind] in H; [discriminate H |].
    injection H as <-. exact (IH eq_refl).
  - injection H as <-. exact (row_line_raises _ _ El).
Qed.

Lemma emit_rows_raises (rows : list (list Z)) (store : Py.TextIOWrapper)
      (e : exn) :
  emit_rows key_store str_store rows store = Raise e -> decode_error e.
Proof.
  intros H.
  pose proof (emit_rows_outcome key_store str_store rows store) as Ho.
  destruct (rows_text key_store str_store rows) as [text | e0] eqn:Et.
  - destruct Ho as (b & store' & _ & Hrun & _).
    rewrite Hrun in H. discriminate H.
  - rewrite Ho in H. injection H as <-. exact (rows_text_raises _ _ Et).
Qed.

End Raises.

Lemma select_valid_raises (quads : list (list Z)) (e : exn) :
  AllotropeDF.select_valid quads = Raise e -> e = IndexError.
Proof.
  induction quads as [| r quads IH]; intros H; [discriminate H |].
  cbn [AllotropeDF.select_valid] in H.
  destruct (Py.getitem r (-1)) as [flag | e0] eqn:Ef; cbn [bind] in H.
  - destruct (AllotropeDF.select_valid quads) as [rest | e1];
      cbn [bind] in H; [discriminate H |].
    injection H as <-. exact (IH eq_refl).
  - injection H as <-. exact (getitem_raises _ _ _ Ef).
Qed.

(** Datasets that have been found: the decoder raises nothing but the
    three exceptions of the dictionary and the table. *)
Lemma get_quads_decode_error (h5f : H5File) (store : Py.TextIOWrapper)
      (e : exn) :
  AllotropeDF._get_quads h5f store = Raise e -> decode_error e.
Proof.
  intros H.
  destruct (AllotropeDF.select_valid (h5_quads h5f)) as [valid | e0] eqn:Hv.
  - rewrite (get_quads_rows _ _ _ Hv) in H. cbv zeta in H.
    destruct (_ <=? _)%nat.
    + exact (emit_rows_raises _ _ _ _ _ H).
    + destruct (emit_rows _ _ valid store) as [store' | e1] eqn:Er;
        cbn [bind] in H; injection H as <-.
      * exact index_is_decode_error.
      * exact (emit_rows_raises _ _ _ _ _ Er).
  - unfold AllotropeDF._get_quads in H. rewrite Hv in H.
    injection H as <-. left. exact (select_valid_raises _ _ Hv).
Qed.

(** With every lookup answered, the run on the file is the run on the
    datasets found. *)
Lemma get_quads_h5f_of_datasets (h5f : H5File) (store : Py.TextIOWrapper) :
  AllotropeDF._get_quads_h5f (H5py.of_datasets h5f) store
  = AllotropeDF._get_quads h5f store.
Proof.
  unfold AllotropeDF._get_quads_h5f, AllotropeDF._get_quads,
    H5py.of_datasets.
  cbn [H5py.getitem H5py.quads H5py.quads_size H5py.dictionary_keys
       H5py.dictionary_bytes bind].
  destruct (AllotropeDF.select_valid (h5_quads h5f)); reflexivity.
Qed.

(** X12. The exceptions of a decode.  For a file whose table, where
    present, is an [int64] table of rank 2 with an integer attribute
    [size], and whose dictionary datasets, where present, are rows of
    unsigned bytes and a string of bytes: a run of [_get_quads] that
    raises raises [KeyError] ([H5KeyError]), and then one of the three
    datasets or the attribute is absent, or [IndexError], [ValueError]
    or [UnicodeDecodeError]; with nothing absent it never raises
    [KeyError].  Writing a line never fails, since every string taken
    from the dictionary encodes again. *)
Theorem get_quads_exceptions (f : H5py.File) (store : Py.TextIOWrapper)
        (e : exn) :
  AllotropeDF._get_quads_h5f f store = Raise e ->
  (e = H5KeyError
   /\ (H5py.quads f = None \/ H5py.quads_size f = None
       \/ H5py.dictionary_keys f = None
       \/ H5py.dictionary_bytes f = None))
  \/ (e <> H5KeyError
      /\ (e = IndexError \/ e = ValueError \/ e = UnicodeDecodeError)).
Proof.
  assert (Hdec : forall e0, decode_error e0 ->
                   e0 <> H5KeyError
                   /\ (e0 = IndexError \/ e0 = ValueError
                       \/ e0 = UnicodeDecodeError)).
  { intros e0 H0. split; [| exact H0].
    destruct H0 as [-> | [-> | ->]]; discriminate. }
  intros H. destruct f as [q n k b].
  unfold AllotropeDF._get_quads_h5f in H.
  cbn [H5py.quads H5py.quads_size H5py.dictionary_keys
       H5py.dictionary_bytes] in *.
  destruct q as [q |]; cbn [H5py.getitem bind] in H;
    [| injection H as <-; left; split; [reflexivity | tauto]].
  destruct n as [n |]; cbn [H5py.getitem bind] in H;
    [| injection H as <-; left; split; [reflexivity | tauto]].
  destruct (AllotropeDF.select_valid q) as [valid | e0] eqn:Hv;
    cbn [bind] in H.
  - destruct k as [k |]; cbn [H5py.getitem bind] in H;
      [| injection H as <-; left; split; [reflexivity | tauto]].
    destruct b as [b |]; cbn [H5py.getitem bind] in H;
      [| injection H as <-; left; split; [reflexivity | tauto]].
    right. apply Hdec.
    apply (get_quads_decode_error (mkH5File q n k b) store).
    unfold AllotropeDF._get_quads.
    cbn [h5_quads h5_quads_size h5_dictionary_keys h5_dictionary_bytes].
    rewrite Hv. exact H.
  - injection H as <-. right. apply Hdec. left.
    exact (select_valid_raises _ _ Hv).
Qed.

Lemma get_quads_exceptions_witness :
  (H5KeyError = H5KeyError
   /\ (H5py.quads missing_size_file = None
       \/ H5py.quads_size missing_size_file = None
       \/ H5py.dictionary_keys missing_size_file = None
       \/ H5py.dictionary_bytes missing_size_file = None))
  \/ (H5KeyError <> H5KeyError
      /\ (H5KeyError = IndexError \/ H5KeyError = ValueError
          \/ H5KeyError = UnicodeDecodeError)).
Proof.
  apply (get_quads_exceptions missing_size_file Py.new_TextIOWrapper).
  reflexivity.
Defined.

(** ** Valid rows, wherever they are *)

(** X13. Which rows are written.  For a table whose rows have at
    least one column, the valid rows are those with last column 0, in
    table order, each without that column, wherever the other rows sit.
    With a [size] attribute not above their number the decoder writes
    the first [size] of them; with a [size] of 0 or less it returns the
    store as it is; with no invalid row in the table and a [size] at
    or above the number of rows it writes them all. *)
Theorem valid_rows_written (h5f : H5File) (store : Py.TextIOWrapper) :
  Forall (fun r => r <> []) (h5_quads h5f) ->
  let valid :=
    map (@removelast Z) (filter (fun r => last r 1 =? 0) (h5_quads h5f)) in
  let key_store := h5_dictionary_keys h5f in
  let str_store := h5_dictionary_bytes h5f in
  (h5_quads_size h5f <= Z.of_nat (length valid) ->
   AllotropeDF._get_quads h5f store
   = emit_rows key_store str_store
               (firstn (Z.to_nat (h5_quads_size h5f)) valid) store)
  /\ (h5_quads_size h5f <= 0 -> AllotropeDF._get_quads h5f store = Ok store)
  /\ (length valid = length (h5_quads h5f) ->
      Z.of_nat (length valid) <= h5_quads_size h5f ->
      AllotropeDF._get_quads h5f store
      = emit_rows key_store str_store valid store).
Proof.
  intros Hrows valid key_store str_store.
  pose proof (select_valid_filter _ Hrows) as Hv. fold valid in Hv.
  assert (Hwithin :
            h5_quads_size h5f <= Z.of_nat (length valid) ->
            AllotropeDF._get_quads h5f store
            = emit_rows key_store str_store
                        (firstn (Z.to_nat (h5_quads_size h5f)) valid) store)
    by (intros Hsize; exact (get_quads_truncates _ _ _ Hv Hsize)).
  split; [exact Hwithin |]. split.
  - intros Hzero. rewrite Hwithin by lia.
    replace (Z.to_nat (h5_quads_size h5f)) with 0%nat by lia.
    reflexivity.
  - intros Hall Hsize.
    exact (get_quads_clamps_all_valid _ _ _ Hv Hall Hsize).
Qed.

Lemma valid_rows_written_witness :
  AllotropeDF._get_quads interleaved_file Py.new_TextIOWrapper
  = emit_rows sample_keys sample_bytes
              [ sample_quad;
                [ pack_node 0 0 8; pack_node 1 1 2; pack_node 1 1 3;
                  pack_node 2 0 4 ] ]
              Py.new_TextIOWrapper.
Proof.
  destruct (valid_rows_written interleaved_file Py.new_TextIOWrapper)
    as (H & _ & _).
  - repeat constructor; discriminate.
  - rewrite H by (vm_compute; discriminate). reflexivity.
Defined.

(** ** Destinations *)

Section Destinations.

Variable Graph : Type.
Variable g_parse : Py.bytes -> result Graph.
Variable g_serialize :
  Graph -> Format -> Destination -> result unit * Destination.

(** X14. Where N-Quads go.  After a decode that returns, [dump_ld]
    with format [nquads] replaces the contents of a file given by path
    -- so a second dump leaves the file as the first did -- and appends
    to a stream; it gives the same result with any RDF parser and
    serializer, which it does not call. *)
Theorem nquads_destinations (h5f : H5File) (store : Py.TextIOWrapper) :
  AllotropeDF._get_quads h5f Py.new_TextIOWrapper = Ok store ->
  (forall contents : Py.bytes,
      AllotropeDF.dump_ld Graph g_parse g_serialize h5f
                          (PathDest contents) nquads
      = (Ok tt, PathDest (Py.getvalue (Py.flush store))))
  /\ (forall written : Py.bytes,
         AllotropeDF.dump_ld Graph g_parse g_serialize h5f
                             (StreamDest written) nquads
         = (Ok tt,
            StreamDest (written ++ Py.getvalue (Py.flush store))))
  /\ (forall (destination : Destination)
             (Graph' : Type) (g_parse' : Py.bytes -> result Graph')
             (g_serialize' :
                Graph' -> Format -> Destination -> result unit * Destination),
         AllotropeDF.dump_ld Graph' g_parse' g_serialize' h5f
                             destination nquads
         = AllotropeDF.dump_ld Graph g_parse g_serialize h5f
                               destination nquads).
Proof.
  intros H.
  assert (E : forall (G : Type) (p : Py.bytes -> result G)
                     (s : G -> Format -> Destination
                          -> result unit * Destination)
                     (d : Destination),
             AllotropeDF.dump_ld G p s h5f d nquads
             = (Ok tt, dest_write d (Py.getvalue (Py.flush store)))).
  { intros G p s d. unfold AllotropeDF.dump_ld. rewrite H. reflexivity. }
  split; [| split].
  - intros contents. apply E.
  - intros written. apply E.
  - intros d G p s. rewrite !E. reflexivity.
Qed.

(** X15. Graph formats go through [get_ld]: for a format other than
    [nquads], [dump_ld] hands the graph that [get_ld] returns to the
    serializer, and when [get_ld] raises -- in the decoder or in the
    parser -- it raises the same exception and leaves the destination
    as it was. *)
Theorem graph_formats_serialize_get_ld
        (h5f : H5File) (destination : Destination) (format : Format) :
  format <> nquads ->
  AllotropeDF.dump_ld Graph g_parse g_serialize h5f destination format
  = match get_ld g_parse h5f with
    | Ok g => g_serialize g format destination
    | Raise e => (Raise e, destination)
    end.
Proof.
  intros Hf. unfold AllotropeDF.dump_ld, get_ld.
  destruct (AllotropeDF._get_quads h5f Py.new_TextIOWrapper)
    as [store | e]; cbn [bind]; [| reflexivity].
  destruct format; [contradiction | | |]; reflexivity.
Qed.

End Destinations.

Lemma nquads_destinations_witness :
  AllotropeDF.dump_ld Py.bytes sample_parse sample_serialize sample_file
                      (PathDest (list_byte_of_string "old")) nquads
  = AllotropeDF.dump_ld Py.bytes sample_parse sample_serialize sample_file
                        (PathDest []) nquads.
Proof.
  destruct (nquads_destinations Py.bytes sample_parse sample_serialize
              sample_file
              (Py.mkTextIO []
                 (list_byte_of_string "<http://ex/s> <http://ex/p> "
                    ++ [x22] ++ list_byte_of_string "hello" ++ [x22]
                    ++ list_byte_of_string " _:g1 ." ++ [x0a])))
    as (Hpath & _ & _); [reflexivity |].
  rewrite !Hpath. reflexivity.
Defined.

Lemma graph_formats_serialize_get_ld_witness :
  AllotropeDF.dump_ld Py.bytes sample_parse sample_serialize
                      reserved_kind_file (StreamDest []) turtle
  = (Raise IndexError, StreamDest []).
Proof.
  rewrite (graph_formats_serialize_get_ld Py.bytes sample_parse
             sample_serialize reserved_kind_file (StreamDest []) turtle)
    by discriminate.
  reflexivity.
Defined.

(** ** Signed fields of an indirect row *)

(** X16. The offset of an indirect row is signed, and a negative one
    is not refused: with [-len <= O < 0] the slice counts from the end
    of the byte store.  When [O + L] is still negative the string is
    the decoding of the [L] bytes starting [-O] bytes before the end;
    when [O + L] is 0 or more but not past [len + O] it is the empty
    string. *)
Theorem negative_offset_counts_from_end
        (key_store : list Py.bytes) (str_store : Py.bytes)
        (key : Z) (body : Py.bytes) (n : byte) :
  0 <= key ->
  nth_error key_store (Z.to_nat key) = Some (body ++ [n]) ->
  let value := body ++ [n] in
  let W := Z.of_nat (length value) in
  let O := row_offset value in
  let L := row_length value in
  let len := Z.of_nat (length str_store) in
  byte_val n = 0 -> 13 <= W -> (W - 9) mod 4 = 0 ->
  len < 2 ^ 63 -> - len <= O < 0 -> 0 <= L ->
  (O + L < 0 ->
   AllotropeDF._get_string key_store str_store key
   = Py.utf8_decode (store_range str_store (len + O) L))
  /\ (0 <= O + L <= len + O ->
      AllotropeDF._get_string key_store str_store key = Ok []).
Proof.
  intros Hkey Hrow value W O L len Hn HW Hmod Hlen HO HL.
  pose proof (get_string_indirect _ str_store _ _ _ Hkey Hrow Hn HW Hmod)
    as E.
  fold value O L in E.
  split; intros Hsum; rewrite int64_id in E by lia;
    unfold Py.slice, Py.adjust_index in E; fold len in E;
    (destruct (Z.ltb_spec O 0); [| lia]);
    rewrite (Z.max_r 0 (O + len)) in E by lia.
  - destruct (Z.ltb_spec (O + L) 0); [| lia].
    rewrite Z.max_r in E by lia.
    rewrite E. unfold store_range. do 3 f_equal; lia.
  - destruct (Z.ltb_spec (O + L) 0); [lia |].
    rewrite Z.min_l in E by lia.
    replace (Z.to_nat (O + L - (O + len))) with 0%nat in E by lia.
    rewrite E. reflexivity.
Qed.

Lemma negative_offset_counts_from_end_witness :
  AllotropeDF._get_string from_end_keys sample_bytes 0 = Ok (Py.lit "bar").
Proof.
  destruct (negative_offset_counts_from_end from_end_keys sample_bytes 0
              (firstn 12 (indirect_row 13 (-7) 3)) x00) as [H _];
    [by_evaluation .. |].
  rewrite H by by_evaluation. reflexivity.
Defined.

(** ** The probes *)

Lemma shape_two_by_five (shape : list nat) :
  (length shape =? 2)%nat = true -> (nth 1 shape 0 =? 5)%nat = true ->
  exists rows : nat, shape = [rows; 5]%nat.
Proof.
  intros Hlen Hcols.
  apply Nat.eqb_eq in Hlen. apply Nat.eqb_eq in Hcols.
  destruct shape as [| rows [| cols [| ? ?]]]; try discriminate Hlen.
  cbn [nth] in Hcols. subst cols. exists rows. reflexivity.
Qed.

(** X17. What [check_ld] accepts.  Without [report] it returns [True]
    exactly when the quads object is a dataset of dtype [int64] and
    shape [(rows, 5)] and objects exist under the two dictionary paths
    -- groups are accepted there as well as datasets.  With [report] it
    asks for the [size] attribute in addition, so it can return [False]
    on a file it accepts without [report]; it prints one line, the
    count, when it returns [True] and nothing when it returns
    [False]. *)
Theorem check_ld_accepts (f : H5Layout) :
  (fst (check_ld f false) = true <->
   (exists (rows : nat) (attrs : list (string * Z)),
       lookup "/data-description/quads" (objects f)
       = Returned (H5Dataset "int64" [rows; 5]%nat attrs))
   /\ (exists k, lookup "/data-description/dictionary/keys" (objects f)
                 = Returned k)
   /\ (exists b, lookup "/data-description/dictionary/bytes" (objects f)
                 = Returned b))
  /\ (fst (check_ld f true) = true <->
      fst (check_ld f false) = true
      /\ exists (dtype_name : string) (shape : list nat)
                (attrs : list (string * Z)) (size : Z),
          lookup "/data-description/quads" (objects f)
          = Returned (H5Dataset dtype_name shape attrs)
          /\ lookup "size" attrs = Returned size
          /\ snd (check_ld f true)
             = [("Number of RDF quads: " ++ decimal size)%string])
  /\ snd (check_ld f false) = []
  /\ (fst (check_ld f true) = false -> snd (check_ld f true) = []).
Proof.
  unfold check_ld, check_ld_try, assert_that.
  destruct (lookup "/data-description/quads" (objects f))
    as [[| dtype_name shape attrs] | e] eqn:Eq; cbn [and_then fst snd].
  2: {
    destruct (String.eqb_spec dtype_name "int64") as [-> | Hd];
      cbn [and_then fst snd].
    2: { repeat split; try discriminate; try reflexivity.
         - intros ((rows & attrs' & H) & _). congruence.
         - intros [H _]. discriminate H. }
    destruct (length shape =? 2)%nat eqn:Hlen; cbn [and_then fst snd].
    2: { repeat split; try discriminate; try reflexivity.
         - intros ((rows & attrs' & H) & _).
           injection H as -> _. discriminate Hlen.
         - intros [H _]. discriminate H. }
    destruct (nth 1 shape 0 =? 5)%nat eqn:Hcols; cbn [and_then fst snd].
    2: { repeat split; try discriminate; try reflexivity.
         - intros ((rows & attrs' & H) & _).
           injection H as -> _. discriminate Hcols.
         - intros [H _]. discriminate H. }
    destruct (shape_two_by_five _ Hlen Hcols) as [rows ->].
    destruct (lookup "/data-description/dictionary/keys" (objects f))
      as [k | e] eqn:Ek; cbn [and_then fst snd].
    2: { repeat split; try discriminate; try reflexivity.
         - intros (_ & (k & H) & _). discriminate H.
         - intros [H _]. discriminate H. }
    destruct (lookup "/data-description/dictionary/bytes" (objects f))
      as [b | e] eqn:Eb; cbn [and_then fst snd].
    2: { repeat split; try discriminate; try reflexivity.
         - intros (_ & _ & (b & H)). discriminate H.
         - intros [H _]. discriminate H. }
    destruct (lookup "size" attrs) as [size | e] eqn:Es;
      cbn [and_then fst snd].
    - repeat split; try reflexivity; try discriminate.
      + exists rows, attrs. reflexivity.
      + exists k. reflexivity.
      + exists b. reflexivity.
      + exists "int64"%string, [rows; 5]%nat, attrs, size.
        repeat split. exact Es.
    - repeat split; try reflexivity; try discriminate.
      + exists rows, attrs. reflexivity.
      + exists k. reflexivity.
      + exists b. reflexivity.
      + intros (_ & d & sh & a & size & H & Hs & _).
        injection H as _ _ <-. congruence. }
  all: repeat split; try discriminate; try reflexivity.
  all: try (intros ((rows & attrs' & H) & _); discriminate H).
  all: intros [H _]; discriminate H.
Qed.

Example check_ld_samples :
  check_ld sample_layout true = (true, ["Number of RDF quads: 2"%string])
  /\ check_ld unsized_layout false = (true, [])
  /\ check_ld unsized_layout true = (false, []).
Proof.
  repeat split.
Qed.

(** ** The command line *)

Section Main.

Variable World : Type.
Variable print : World -> string -> World.

Lemma find_with_dump_ld
      (dump : H5Layout -> Target -> Format -> World -> Exit * World)
      (f : H5Layout) (formats : list (Reader World)) :
  find (fun cls => reader_verify_format cls f)
       (map (with_dump_ld dump) formats)
  = option_map (with_dump_ld dump)
               (find (fun cls => reader_verify_format cls f) formats).
Proof.
  induction formats as [| r formats IH]; [reflexivity |].
  cbn [map find]. unfold with_dump_ld at 1. cbn [reader_verify_format].
  destruct (reader_verify_format r f); [reflexivity | exact IH].
Qed.

Lemma unsupported_notice_with_dump_ld
      (dump : H5Layout -> Target -> Format -> World -> Exit * World)
      (formats : list (Reader World)) (h5file : string) :
  unsupported_notice (map (with_dump_ld dump) formats) h5file
  = unsupported_notice formats h5file.
Proof.
  unfold unsupported_notice. rewrite map_map. reflexivity.
Qed.

(** X18. What the command line does without decoding.  When no reader
    class recognises the file, [main] raises [SystemExit] and the world
    is as it was, with [--check] or without.  With [--check] on a
    recognised file it finishes normally and only prints.  In both
    cases the result is the same whatever the [dump_ld] of the reader
    classes would do: it is not called. *)
Theorem main_without_decoding
        (formats : list (Reader World)) (arg : Args) (f : H5Layout)
        (w : World) :
  (find (fun cls => reader_verify_format cls f) formats = None ->
   exists message : string,
     main print formats arg f w = (SystemExit message, w))
  /\ (forall cls : Reader World,
         find (fun cls => reader_verify_format cls f) formats = Some cls ->
         arg_check arg = true ->
         exists lines : list string,
           main print formats arg f w = (Finished, print_all print w lines))
  /\ (find (fun cls => reader_verify_format cls f) formats = None
      \/ arg_check arg = true ->
      forall dump : H5Layout -> Target -> Format -> World -> Exit * World,
        main print (map (with_dump_ld dump) formats) arg f w
        = main print formats arg f w).
Proof.
  split; [| split].
  - intros Hnone. unfold main. rewrite Hnone. eexists. reflexivity.
  - intros cls Hsome Hcheck. unfold main. rewrite Hsome, Hcheck.
    destruct (reader_check_ld cls f true) as [ok printed].
    destruct ok.
    + exists printed. reflexivity.
    + exists (printed ++ unsupported_notice formats (arg_h5file arg)).
      unfold print_all. rewrite fold_left_app. reflexivity.
  - intros Hcase dump. unfold main.
    rewrite find_with_dump_ld, unsupported_notice_with_dump_ld.
    destruct (find (fun cls => reader_verify_format cls f) formats)
      as [cls |]; cbn [option_map]; [| reflexivity].
    destruct Hcase as [Hnone | Hcheck]; [discriminate Hnone |].
    rewrite Hcheck. reflexivity.
Qed.

End Main.

Lemma main_without_decoding_witness :
  main (fun w line => w ++ [line]) [sample_reader]
       (mkArgs "a.adf" true turtle None) unsized_layout []
  = (Finished,
     [ (double_quote ++ "a.adf" ++ double_quote
          ++ " has unsupported linked data storage format")%string;
       "Supported linked data formats:"%string;
       "   * Allotrope Data Format (ADF)"%string ])
  /\ main (fun w line => w ++ [line]) [sample_reader]
          (mkArgs "a.h5" false nquads (Some "out.nq"%string))
          (mkH5Layout [("adf-version", "1.2")]%string []) []
     = (SystemExit
          ("Unsupported data content in " ++ double_quote ++ "a.h5"
             ++ double_quote ++ ".")%string,
        []).
Proof.
  split.
  - destruct (main_without_decoding (list string) (fun w line => w ++ [line])
                [sample_reader] (mkArgs "a.adf" true turtle None)
                unsized_layout [])
      as (_ & _ & Hsame).
    rewrite <- (Hsame (or_intror eq_refl)
                     (fun _ _ _ w => (Uncaught IndexError, w))).
    reflexivity.
  - destruct (main_without_decoding (list string) (fun w line => w ++ [line])
                [sample_reader]
                (mkArgs "a.h5" false nquads (Some "out.nq"%string))
                (mkH5Layout [("adf-version", "1.2")]%string []) [])
      as (Hnone & _ & _).
    destruct (Hnone eq_refl) as [message H].
    rewrite H. vm_compute in H. 
    injection H as <-. reflexivity.
Defined.

Lemma lookup_returned {V : Type} (name : string) (l : list (string * V)) :
  (exists v, lookup name l = Returned v) <-> In name (map fst l).
Proof.
  induction l as [| [k v] l IH]; cbn [lookup map fst In].
  - split; [intros [v H]; discriminate H | contradiction].
  - destruct (String.eqb_spec name k) as [-> | Hne].
    + split; [left; reflexivity | intros _; exists v; reflexivity].
    + rewrite IH. split; [right; assumption |].
      intros [Heq | Hin]; [congruence | assumption].
Qed.

(** X19. What [verify_format] recognises: a file is taken for ADF
    exactly when its root has both attributes [adf-lib-version] and
    [adf-version], whatever their values and whatever else the file
    holds; with the one reader class of the program, [main] raises
    [SystemExit] exactly on the other files. *)
Theorem verify_format_recognises
        (World : Type) (print : World -> string -> World)
        (reader : Reader World) (arg : Args) (f : H5Layout) (w : World) :
  reader_verify_format reader = verify_format ->
  (verify_format f = true <->
   In "adf-lib-version"%string (map fst (root_attrs f))
   /\ In "adf-version"%string (map fst (root_attrs f)))
  /\ ((exists message : string,
          fst (main print [reader] arg f w) = SystemExit message) <->
      ~ (In "adf-lib-version"%string (map fst (root_attrs f))
         /\ In "adf-version"%string (map fst (root_attrs f)))
      \/ (arg_check arg = false
          /\ exists message : string,
              fst (reader_dump_ld reader f (target_of (arg_output arg))
                                  (arg_format arg) w)
              = SystemExit message)).
Proof.
  intros Hreader.
  assert (Hiff : verify_format f = true <->
                 In "adf-lib-version"%string (map fst (root_attrs f))
                 /\ In "adf-version"%string (map fst (root_attrs f))).
  { rewrite <- !lookup_returned. unfold verify_format.
    destruct (lookup "adf-lib-version" (root_attrs f)) as [v1 | e1];
      cbn [and_then].
    - destruct (lookup "adf-version" (root_attrs f)) as [v2 | e2];
        cbn [and_then].
      + split; [intros _; split; eexists; reflexivity | reflexivity].
      + split; [discriminate | intros [_ [v H]]; discriminate H].
    - split; [discriminate | intros [[v H] _]; discriminate H]. }
  split; [exact Hiff |].
  unfold main. cbn [find]. rewrite Hreader.
  destruct (verify_format f) eqn:Ev.
  - destruct (arg_check arg).
    + destruct (reader_check_ld reader f true) as [ok printed].
      split.
      * intros [message H]. destruct ok; discriminate H.
      * intros [Hno | [Hc _]]; [| discriminate Hc].
        exfalso. apply Hno. apply Hiff. reflexivity.
    + split.
      * intros H. right. split; [reflexivity | exact H].
      * intros [Hno | [_ H]]; [| exact H].
        exfalso. apply Hno. apply Hiff. reflexivity.
  - split.
    + intros _. left. intros Hin. apply Hiff in Hin. discriminate Hin.
    + intros _. eexists. reflexivity.
Qed.

Lemma verify_format_recognises_witness :
  verify_format sample_layout = true
  /\ verify_format (mkH5Layout [("adf-version", "1.2")]%string []) = false.
Proof.
  destruct (verify_format_recognises (list string)
              (fun w line => w ++ [line]) sample_reader
              (mkArgs "a.adf" false nquads None) sample_layout []
              eq_refl) as [Hyes _].
  destruct (verify_format_recognises (list string)
              (fun w line => w ++ [line]) sample_reader
              (mkArgs "a.adf" false nquads None)
              (mkH5Layout [("adf-version", "1.2")]%string []) []
              eq_refl) as [Hno _].
  split.
  - apply Hyes. split; [left; reflexivity | right; left; reflexivity].
  - destruct (verify_format (mkH5Layout [("adf-version", "1.2")]%string []))
      eqn:E; [| reflexivity].
    destruct (proj1 Hno eq_refl) as [[H | []] _]. discriminate H.
Defined.

Lemma escaped_value_is_clean_witness :
  exists pre' : Py.str, [97; 92] = pre' ++ [92].
Proof.
  destruct (escaped_value_is_clean [97; 34; 98]) as [_ Hquote].
  apply (Hquote [97; 92] [98] 34).
  - reflexivity.
  - left. reflexivity.
Defined.

Lemma check_ld_accepts_witness :
  fst (check_ld sample_layout false) = true
  /\ fst (check_ld unsized_layout true) = false.
Proof.
  split.
  - destruct (check_ld_accepts sample_layout) as (_ & Hreport & _).
    apply (proj1 Hreport). reflexivity.
  - destruct (check_ld_accepts unsized_layout) as (_ & Hreport & _).
    destruct (fst (check_ld unsized_layout true)) eqn:E; [| reflexivity].
    destruct (proj1 Hreport eq_refl)
      as (_ & d & sh & a & size & Hq & Hs & _).
    vm_compute in Hq. injection Hq as _ _ <-. discriminate Hs.
Defined.
